(** * locasploit: version accuracy, alias expansion, module checks and runs

    A shallow embedding of the parts of

      - [source/modules/analysis_iot.py]
      - [source/modules/packages_dpkg_installed.py]
      - [source/modules/locasploit_update_vulnerabilities.py]

    that the specification talks about, with the properties proved about
    them.  Python [str] values are modelled by [string]; the model covers
    strings over the ASCII range, which is what version strings and dpkg
    status files hold ([str.isdigit] is then membership in '0'..'9'). *)

From Stdlib Require Import String Ascii List ZArith Bool Lia DecimalString.
From stdpp Require Import base option list gmap strings.

Local Open Scope string_scope.
Local Open Scope list_scope.

(** ** Python string methods used by the modules *)

Module PyStr.

Definition fst3 {A B C} (t : A * B * C) : A := fst (fst t).
Definition snd3 {A B C} (t : A * B * C) : B := snd (fst t).
Definition thd3 {A B C} (t : A * B * C) : C := snd t.

(** [s.partition(sep)] for a one-character separator: the text before the
    first [sep], the separator, the text after it; [(s, '', '')] when
    [sep] does not occur. *)
Fixpoint partition (sep : ascii) (s : string) : string * string * string :=
  match s with
  | EmptyString => (EmptyString, EmptyString, EmptyString)
  | String c rest =>
      if Ascii.eqb c sep then (EmptyString, String sep EmptyString, rest)
      else let t := partition sep rest in
           (String c (fst3 t), snd3 t, thd3 t)
  end.

(** [s.replace(a, b)] for one-character [a] and [b]: every occurrence. *)
Fixpoint replace (a b : ascii) (s : string) : string :=
  match s with
  | EmptyString => EmptyString
  | String c rest =>
      String (if Ascii.eqb c a then b else c) (replace a b rest)
  end.

(** [c in s] for a one-character [c]. *)
Fixpoint contains_char (c : ascii) (s : string) : bool :=
  match s with
  | EmptyString => false
  | String d rest => Ascii.eqb d c || contains_char c rest
  end.

Definition is_digit_char (c : ascii) : bool :=
  let n := nat_of_ascii c in Nat.leb 48 n && Nat.leb n 57.

Fixpoint all_digits (s : string) : bool :=
  match s with
  | EmptyString => true
  | String c rest => is_digit_char c && all_digits rest
  end.

(** [s.isdigit()]: at least one character and all of them digits. *)
Definition isdigit (s : string) : bool :=
  match s with
  | EmptyString => false
  | String _ _ => all_digits s
  end.

(** [sep.join(parts)]. *)
Definition join (sep : string) (parts : list string) : string :=
  String.concat sep parts.

(** [s.startswith(p)]. *)
Definition startswith (p s : string) : bool := String.prefix p s.

(** [sub in s] for strings. *)
Fixpoint contains (sub s : string) : bool :=
  String.prefix sub s ||
  match s with
  | EmptyString => false
  | String _ rest => contains sub rest
  end.

(** [x in l] for a list (or tuple) of strings. *)
Definition in_list (x : string) (l : list string) : bool :=
  existsb (String.eqb x) l.

End PyStr.

(** ** analysis.iot: version accuracy *)

Module AnalysisIot.
Import PyStr.

(** The epoch step at the head of [get_accurate_version]. *)
Definition epoch_fold (use_epoch : bool) (version : string) : string :=
  if use_epoch then replace ":" "." version
  else if contains_char ":" version then thd3 (partition ":" version)
       else version.

(** The body of [get_accurate_version] below the epoch step; [version]
    is rebound as the source rebinds it. *)
Definition truncate (accuracy version : string) : string :=
  if String.eqb accuracy "none" then ""
  else if in_list accuracy ["major"; "minor"; "build"] then
    let majorparts := partition "." version in
    let version :=
      if in_list accuracy ["major"; "minor"; "build"]
         && isdigit (fst3 majorparts)
      then fst3 (partition "-" (fst3 majorparts)) else version in
    let minorparts := partition "." (thd3 majorparts) in
    let version :=
      if in_list accuracy ["minor"; "build"]
         && negb (String.eqb (fst3 minorparts) "")
      then join "." [fst3 majorparts;
                     fst3 (partition "-" (fst3 minorparts))]
      else version in
    let buildparts := partition "." (thd3 minorparts) in
    let version :=
      if String.eqb accuracy "build"
         && negb (String.eqb (fst3 buildparts) "")
      then join "." [fst3 majorparts; fst3 minorparts;
                     fst3 (partition "-" (fst3 buildparts))]
      else version in
    version
  else version.

Definition get_accurate_version
    (accuracy version : string) (use_epoch : bool) : string :=
  let version := epoch_fold use_epoch version in
  truncate accuracy version.

(** *** alias expansion *)

(** A package observation: the tuple [(name, variant, version)]. *)
Abbreviation package := (string * option string * string)%type.

(** The inner [for p in packages] loop of [get_alias_packages] for one
    group [k], with its [break]; [acc] is [(alias_matches, result)]. *)
Fixpoint scan_packages (k : list string) (packages : list package)
    (acc : list string * list package) : list string * list package :=
  match packages with
  | [] => acc
  | p :: rest =>
      if in_list (fst3 p) k then
        let aliases :=
          map (fun x => (x, snd3 p, thd3 p))
              (List.filter (fun x => negb (String.eqb x (fst3 p))) k) in
        (fst acc ++ map fst3 aliases, snd acc ++ aliases)
      else scan_packages k rest acc
  end.

Definition get_alias_packages (packages : list package)
    (known : list (list string)) : list string * list package :=
  fold_left (fun acc k => scan_packages k packages acc) known ([], []).

End AnalysisIot.

(** ** The framework state shared by the modules *)

Module Framework.
Import PyStr.

(** Modelled from the spec: the [CHECK_*] constants of
    [source/libs/define.py], which is not among the sources.  The spec
    gives the scale as [FAILURE < UNLIKELY < PROBABLY < SUCCESS]. *)
Inductive Confidence : Set :=
| CHECK_FAILURE | CHECK_UNLIKELY | CHECK_PROBABLY | CHECK_SUCCESS.

Definition rank (c : Confidence) : Z :=
  match c with
  | CHECK_FAILURE => 0
  | CHECK_UNLIKELY => 1
  | CHECK_PROBABLY => 2
  | CHECK_SUCCESS => 3
  end%Z.

Definition cle (a b : Confidence) : Prop := (rank a <= rank b)%Z.

(** Python's [min(a, b)] on the scale: [b] only when strictly smaller. *)
Definition cmin (a b : Confidence) : Confidence :=
  if (rank b <? rank a)%Z then b else a.

#[export] Instance Confidence_eq_dec : EqDecision Confidence.
Proof. solve_decision. Defined.

(** A parameter value: a Python string or [None]. *)
Abbreviation value := (option string).

Definition veq (v : value) (s : string) : bool :=
  match v with Some x => String.eqb x s | None => false end.

Definition v_in (v : value) (l : list string) : bool :=
  existsb (veq v) l.

(** ['%s' % v]. *)
Definition pystr (v : value) : string :=
  match v with Some x => x | None => "None" end.

Inductive log_entry : Set :=
| LogErr (msg : string)
| LogWarn (msg : string)
| LogInfo (msg : string)
| LogOk (msg : string).

Inductive thread_status : Set := Initial | Started | Finished.

(** The [Thread] object of locasploit.update.vulnerabilities. *)
Record thread : Set := mkThread {
  th_silent : bool;
  th_background : bool;
  th_terminate : bool;
  th_status : thread_status
}.

(** A job handle is the identity of a unit of work; the units created by
    this repository's own [Thread(...)] are the indices of [threads]. *)
Abbreviation handle := nat.

(** What [lib.scheduler.add] returns: a job id or [None]. *)
Abbreviation jobid := (option nat).

Record Job : Set := mkJob {
  job_id : nat;
  job_name : string;
  job_start : Z;
  job_handle : handle;
  job_timeout : option Z;
  job_waitfor : option (list jobid)
}.

Section World.
(** The persistent corpus [lib.db], whose engine is not among the
    sources. *)
Context {DB : Type}.

Record World : Type := mkWorld {
  tb : gmap value (list AnalysisIot.package);
  tb_writes : list (value * list AnalysisIot.package);
  db : DB;
  params : gmap string (gmap string value);
  log : list log_entry;
  scheduler : list Job;
  threads : list thread
}.

(** [lib.modules[m].parameters[k].value]; every key the modules read
    is created by [reset_parameters]. *)
Definition get_param (w : World) (m k : string) : value :=
  match params w !! m with
  | Some ps => match ps !! k with Some v => v | None => None end
  | None => None
  end.

Definition set_param (m k : string) (v : value) (w : World) : World :=
  {| tb := tb w; tb_writes := tb_writes w; db := db w;
     params := <[m := <[k := v]> (default ∅ (params w !! m))]> (params w);
     log := log w; scheduler := scheduler w; threads := threads w |}.

Definition log_add (e : log_entry) (w : World) : World :=
  {| tb := tb w; tb_writes := tb_writes w; db := db w;
     params := params w; log := log w ++ [e];
     scheduler := scheduler w; threads := threads w |}.

(** The recurring [if not silent: log....]. *)
Definition log_unless (silent : bool) (e : log_entry) (w : World) : World :=
  if silent then w else log_add e w.

(** [tb[k] = v]. *)
Definition tb_set (k : value) (v : list AnalysisIot.package) (w : World)
    : World :=
  {| tb := <[k := v]> (tb w); tb_writes := tb_writes w ++ [(k, v)];
     db := db w; params := params w; log := log w;
     scheduler := scheduler w; threads := threads w |}.

Definition set_scheduler (s : list Job) (w : World) : World :=
  {| tb := tb w; tb_writes := tb_writes w; db := db w;
     params := params w; log := log w;
     scheduler := s; threads := threads w |}.

Definition set_threads (t : list thread) (w : World) : World :=
  {| tb := tb w; tb_writes := tb_writes w; db := db w;
     params := params w; log := log w;
     scheduler := scheduler w; threads := t |}.

(** Modelled from the spec: what [io.read_file] returns, the backend and
    the [IO_ERROR] constant of [source/libs] not being among the sources.
    The spec gives the read as "bytes | IOError", the fault being "a
    distinguishable error value". *)
Inductive read_result : Set :=
| IO_ERROR
| FileContent (s : string).

(** What [get_property] returns: a number ([-1] is the one [Thread.run]
    prints as 'never') or a string. *)
Inductive property : Set :=
| PropInt (z : Z)
| PropStr (s : string).

#[export] Instance property_eq_dec : EqDecision property.
Proof. solve_decision. Defined.

(** The collaborators the modules call and that are not among the
    sources: the helpers of [source/libs], the filesystem backend, the
    registry's other modules, the clock. *)
Record Env : Type := mkEnv {
  positive : value -> bool;
  negative : value -> bool;
  (* lib.modules['iot.binwalk.extract'].check() *)
  ibe_check : World -> Confidence * World;
  (* io.get_ssh_connection(target) is not None *)
  get_ssh_connection : value -> bool;
  (* io.get_file_info(activeroot, target)['type'] *)
  get_file_info_type : value -> value -> string;
  get_system_type_from_active_root : value -> string;
  can_read : value -> string -> bool;
  read_file : value -> string -> read_result;
  (* from urllib.request import urlretrieve succeeds *)
  urllib_importable : bool;
  (* the DB_ERROR constant of source/libs *)
  DB_ERROR : property;
  (* lib.db['vuln'].get_property('last_update') *)
  last_update : property;
  (* (datetime.now() - datetime.strptime(s, '%Y-%m-%d')).days, None
     when strptime raises ValueError *)
  days_since : string -> option Z;
  (* datetime.now().year *)
  this_year : nat;
  (* time.time(), as read when the n-th stage is registered *)
  time_time : nat -> Z;
  (* lib.modules[name].run(): the value it returns and what it does *)
  sub_run_result : string -> option handle;
  sub_run_effect : string -> World -> World
}.

End World.

Arguments World : clear implicits.
Arguments Env : clear implicits.

End Framework.

(** ** analysis.iot: check *)

Module AnalysisIotCheck.
Import PyStr Framework.

Section Check.
Context {DB : Type} (E : Env DB).

Definition self : string := "analysis.iot".
Definition ibe : string := "iot.binwalk.extract".

(** The end of [check], from "supported accuracy?" to [return result]. *)
Definition check_accuracy (silent : bool) (accuracy : value)
    (result : Confidence) (w : World DB) : Confidence * World DB :=
  if negb (v_in accuracy ["none"; "major"; "minor"; "build"; "full"]) then
    (CHECK_FAILURE,
     log_unless silent
       (LogErr ("Unsupported ACCURACY '" +:+ pystr accuracy +:+ "'")) w)
  else (result, w).

Definition check (silent : option bool) (w : World DB)
    : Confidence * World DB :=
  let result := CHECK_PROBABLY in
  let silent :=
    match silent with
    | None => positive E (get_param w self "SILENT")
    | Some b => b
    end in
  let method := get_param w self "METHOD" in
  let target := get_param w self "TARGET" in
  let activeroot := get_param w self "ACTIVEROOT" in
  let accuracy := get_param w self "ACCURACY" in
  let extract := get_param w self "EXTRACT" in
  (* supported method? *)
  let '(result, w) :=
    if negb (v_in method ["local"; "image"; "ssh"]) then
      (CHECK_FAILURE,
       log_unless silent
         (LogErr ("Unsupported method '" +:+ pystr method +:+ "'")) w)
    else (result, w) in
  if veq method "image" then
    (* check binwalk module *)
    let w := set_param ibe "ACTIVEROOT" (get_param w self "ACTIVEROOT") w in
    let w := set_param ibe "BINFILE" (get_param w self "TARGET") w in
    let w := set_param ibe "TMPDIR" (get_param w self "TMPDIR") w in
    let '(c, w) := ibe_check E w in
    let result := cmin result c in
    if negb (positive E extract || negative E extract) then
      (CHECK_FAILURE,
       log_unless silent (LogErr "EXTRACT value is not valid.") w)
    else check_accuracy silent accuracy result w
  else if veq method "ssh" then
    (* existing connection? *)
    let '(result, w) :=
      if negb (get_ssh_connection E target) then
        (CHECK_FAILURE,
         log_unless silent
           (LogErr ("Non-existent SSH connection '" +:+ pystr target +:+ "'"))
           w)
      else (result, w) in
    check_accuracy silent accuracy result w
  else if veq method "local" then
    (* target is a directory? *)
    let '(result, w) :=
      if negb (String.eqb (get_file_info_type E activeroot target) "d") then
        (CHECK_FAILURE,
         log_unless silent
           (LogErr "Only folders can be analyzed with the 'local' method.") w)
      else (result, w) in
    check_accuracy silent accuracy result w
  else check_accuracy silent accuracy result w.

End Check.
End AnalysisIotCheck.

(** ** packages.dpkg.installed *)

Module PackagesDpkgInstalled.
Import PyStr Framework.

(** The line boundaries of [str.splitlines] in the ASCII range. *)
Definition is_linebreak (c : ascii) : bool :=
  existsb (Nat.eqb (nat_of_ascii c)) [10; 11; 12; 13; 28; 29; 30]%nat.

(** [s.splitlines()], [cur] being the line read so far; a carriage return
    followed by a line feed is one boundary. *)
Fixpoint splitlines_from (cur : string) (s : string) : list string :=
  match s with
  | EmptyString =>
      match cur with EmptyString => [] | String _ _ => [cur] end
  | String c rest =>
      if is_linebreak c then
        cur ::
        match rest with
        | String d rest' =>
            if Nat.eqb (nat_of_ascii c) 13 && Nat.eqb (nat_of_ascii d) 10
            then splitlines_from EmptyString rest'
            else splitlines_from EmptyString rest
        | EmptyString => []
        end
      else splitlines_from (cur +:+ String c EmptyString) rest
  end.

Definition splitlines (s : string) : list string :=
  splitlines_from EmptyString s.

(** The [zip] of three references to one iterator over [l]: consecutive
    groups of three, an incomplete last group being dropped. *)
Fixpoint triples (l : list string) : list (list string) :=
  match l with
  | a :: l1 =>
      match l1 with
      | b :: l2 =>
          match l2 with
          | c :: rest => [a; b; c] :: triples rest
          | [] => []
          end
      | [] => []
      end
  | [] => []
  end.

(** [[x.partition(' ')[2] for x in entry if x.startswith(key)][0]];
    [None] stands for the [IndexError]. *)
Definition field (key : string) (entry : list string) : option string :=
  head (map (fun x => thd3 (partition " " x))
            (List.filter (startswith key) entry)).

(** One turn of [for entry in info]. *)
Definition add_entry (results : list AnalysisIot.package)
    (entry : list string) : list AnalysisIot.package :=
  match field "Package" entry with
  | None => results
  | Some pkg =>
      match field "Version" entry with
      | None => results
      | Some version =>
          match field "Status" entry with
          | None => results
          | Some status =>
              if contains "installed" status
              then results ++ [(pkg, None, version)]
              else results
          end
      end
  end.

Definition parse_status (content : string) : list AnalysisIot.package :=
  let info :=
    triples
      (List.filter
         (fun x => startswith "Package" x || startswith "Status" x
                   || startswith "Version" x)
         (splitlines content)) in
  fold_left add_entry info [].

Definition string_of_nat (n : nat) : string :=
  DecimalString.NilEmpty.string_of_uint (Nat.to_uint n).

Section Module.
Context {DB : Type} (E : Env DB).

Definition self : string := "packages.dpkg.installed".
Definition status_file : string := "/var/lib/dpkg/status".

Definition check (silent : option bool) (w : World DB)
    : Confidence * World DB :=
  let silent :=
    match silent with
    | None => positive E (get_param w self "SILENT")
    | Some b => b
    end in
  let activeroot := get_param w self "ACTIVEROOT" in
  let result := CHECK_SUCCESS in
  (* is the system linux? *)
  let '(result, w) :=
    if negb (startswith "lin" (get_system_type_from_active_root E activeroot))
    then (CHECK_UNLIKELY,
          log_unless silent
            (LogWarn "Target system does not belong to Linux family.") w)
    else (result, w) in
  (* can open /var/lib/dpkg/status? *)
  let '(result, w) :=
    if negb (can_read E activeroot status_file)
    then (CHECK_FAILURE,
          log_unless silent (LogErr "Cannot open /var/lib/dpkg/status file.") w)
    else (result, w) in
  (result, w).

Definition run (w : World DB) : option handle * World DB :=
  let silent := positive E (get_param w self "SILENT") in
  let activeroot := get_param w self "ACTIVEROOT" in
  let tag := get_param w self "TAG" in
  match read_file E activeroot status_file with
  | IO_ERROR =>
      (None, log_add (LogErr "Cannot read /var/lib/dpkg/status!") w)
  | FileContent content =>
      let results := parse_status content in
      let w := tb_set tag results w in
      let w :=
        log_unless silent
          (LogOk (string_of_nat (length results) +:+ " packages revealed.")) w in
      (None, w)
  end.

End Module.
End PackagesDpkgInstalled.

(** ** locasploit.update.vulnerabilities *)

Module LocasploitUpdateVulnerabilities.
Import PyStr Framework.

Inductive exn : Set := TypeError | ValueError | ImportError.

(** How [Thread.run] ends. *)
Inductive outcome : Set :=
| Returned
| Raised (e : exn).

Section Module.
Context {DB : Type} (E : Env DB).

Definition self : string := "locasploit.update.vulnerabilities".
Definition cve : string := "locasploit.update.cve".
Definition exploit : string := "locasploit.update.exploit".
Definition cleanup : string := "locasploit.cleanup".

Definition check (silent : option bool) (w : World DB)
    : Confidence * World DB :=
  let silent :=
    match silent with
    | None => positive E (get_param w self "SILENT")
    | Some b => b
    end in
  let result := CHECK_PROBABLY in
  (* check parameters *)
  let silent := positive E (get_param w self "SILENT") in
  let '(result, w) :=
    if negb (positive E (get_param w self "BACKGROUND"))
       && negb (negative E (get_param w self "BACKGROUND"))
    then (CHECK_FAILURE, log_unless silent (LogErr "Bad %s value: %s.") w)
    else (result, w) in
  (* can import urlib? *)
  let '(result, w) :=
    if negb (urllib_importable E)
    then (CHECK_FAILURE,
          log_unless silent
            (LogErr "Cannot import urllib.request library (urllib5).") w)
    else (result, w) in
  (result, w).

(** Modelled from the spec: [lib.scheduler.add], whose module is not among
    the sources.  "registers a unit. If handle is null, the call is a
    no-op returning no usable id"; ids are scheduler-assigned and never
    reused, the scheduler retaining its history. *)
Definition scheduler_add (name : string) (start : Z) (job : option handle)
    (timeout : option Z) (waitfor : option (list jobid)) (w : World DB)
    : jobid * World DB :=
  match job with
  | None => (None, w)
  | Some h =>
      let id := length (scheduler w) in
      (Some id,
       set_scheduler (scheduler w ++ [mkJob id name start h timeout waitfor]) w)
  end.

(** Modelled from the spec: the default [waitFor = {}] of [add]. *)
Definition default_waitfor : option (list jobid) := Some [].

(** [lib.modules[name].run()]. *)
Definition run_sub (name : string) (w : World DB)
    : option handle * World DB :=
  (sub_run_result E name, sub_run_effect E name w).

(** ['never' if last == -1 else last], as ['%s'] prints it. *)
Definition last_text (last : property) : string :=
  match last with
  | PropInt z =>
      if (z =? -1)%Z then "never"
      else DecimalString.NilEmpty.string_of_int (Z.to_int z)
  | PropStr s => s
  end.

(** The test [last_update != DB_ERROR and (now - strptime(last_update)).days
    < 8]: [strptime] raises [TypeError] on a number and [ValueError] on a
    string that is no date. *)
Definition updated_lately (last : property) : exn + bool :=
  if bool_decide (last = DB_ERROR E) then inr false
  else
    match last with
    | PropInt _ => inl TypeError
    | PropStr s =>
        match days_since E s with
        | None => inl ValueError
        | Some d => inr (d <? 8)%Z
        end
    end.

(** [' '.join(map(str, range(2002, year+1)))]. *)
Definition all_years (year : nat) : string :=
  join " " (map PackagesDpkgInstalled.string_of_nat
                (seq 2002 (year + 1 - 2002))).

Definition yes_no (b : bool) : value := Some (if b then "yes" else "no").

(** [Thread.run].  The import of [urlretrieve] that follows the test of
    [terminate] stands outside any [try]: where urllib cannot be imported
    it raises [ImportError] before anything is logged, written or run. *)
Definition Thread_run (t : thread) (w : World DB) : outcome * World DB :=
  if th_terminate t then (Returned, w) else
  (* from urllib.request import urlretrieve *)
  if negb (urllib_importable E) then (Raised ImportError, w) else
  let last := last_update E in
  let w := log_add (LogInfo ("Last update: " +:+ last_text last)) w in
  let w := set_param cve "BACKGROUND" (yes_no (th_background t)) w in
  let last_update := last_update E in
  match updated_lately last_update with
  | inl e => (Raised e, w)
  | inr lately =>
      let w :=
        if lately then
          set_param cve "YEARS" (Some "Modified")
            (log_add (LogInfo "Entries have been updated less than 8 days ago, checking Modified feed only...") w)
        else
          set_param cve "YEARS" (Some (all_years (this_year E)))
            (log_add (LogInfo "Entries have been updated more than 8 days ago, checking all feeds for change...") w) in
      let w :=
        log_add (LogInfo ("Will update following years: "
                          +:+ pystr (get_param w cve "YEARS"))) w in
      let '(job, w) := run_sub cve w in
      (* get job id so we can wait for it *)
      let '(lucid, w) :=
        match job with
        | None => (None, w)
        | Some _ =>
            let '(i, w) :=
              scheduler_add cve (time_time E 0) job None default_waitfor w in
            (Some [i], w)
        end in
      let w := set_param exploit "BACKGROUND" (yes_no (th_background t)) w in
      let '(job, w) := run_sub exploit w in
      let '(lue, w) :=
        match job with
        | None => (None, w)
        | Some _ =>
            let '(i, w) :=
              scheduler_add exploit (time_time E 1) job None lucid w in
            (Some [i], w)
        end in
      (* cleanup *)
      let w := set_param cleanup "BACKGROUND" (yes_no (th_background t)) w in
      let '(job, w) := run_sub cleanup w in
      (* lucid+lue *)
      match lucid, lue with
      | Some a, Some b =>
          let '(_, w) :=
            scheduler_add cleanup (time_time E 2) job None (Some (a ++ b)) w in
          (Returned, w)
      | _, _ => (Raised TypeError, w)
      end
  end.

Definition set_status (t : handle) (st : thread_status) (w : World DB)
    : World DB :=
  set_threads
    (alter (fun th => mkThread (th_silent th) (th_background th)
                               (th_terminate th) st) t (threads w)) w.

(** [Module.run].  [t.start()] followed at once by [t.join()] lets the
    caller wait for the body of the thread: the body runs to its end, by
    return or by an exception that ends the thread and not the caller. *)
Definition run (w : World DB) : option handle * World DB :=
  let silent := positive E (get_param w self "SILENT") in
  let background := positive E (get_param w self "BACKGROUND") in
  let t := length (threads w) in
  let th := mkThread silent background false Initial in
  let w := set_threads (threads w ++ [th]) w in
  if positive E (get_param w self "BACKGROUND") then (Some t, w)
  else
    let w := set_status t Started w in
    let '(_, w) := Thread_run th w in
    let w := set_status t Finished w in
    (None, w).

End Module.
End LocasploitUpdateVulnerabilities.

Module LUV := LocasploitUpdateVulnerabilities.

(** ** Reading aids for the properties *)

Module Aids.
Import PyStr AnalysisIot Framework.

(** Two [(alias_matches, result)] pairs, one after the other. *)
Definition acc_app {A B : Type} (a b : list A * list B) : list A * list B :=
  (fst a ++ fst b, snd a ++ snd b).

(** The observations synthesized from [p] for the group [k]. *)
Definition synthesized (k : list string) (p : package) : list package :=
  map (fun x => (x, snd3 p, thd3 p))
      (List.filter (fun x => negb (String.eqb x (fst3 p))) k).

(** The verdict of a precondition that can only fail. *)
Definition verdict (ok : bool) : Confidence :=
  if ok then CHECK_SUCCESS else CHECK_FAILURE.

(** The spec's aggregate: the minimum of a start value and the verdicts. *)
Definition aggregate (start : Confidence) (verdicts : list Confidence)
    : Confidence :=
  fold_left cmin verdicts start.

(** The scratch store, with the record of its assignments, and the
    persistent corpus are the same in both worlds. *)
Definition same_stores {DB : Type} (w w' : World DB) : Prop :=
  tb w' = tb w /\ tb_writes w' = tb_writes w /\ db w' = db w.

Section Environment.
Context {DB : Type} (E : Env DB).

(** The preconditions analysis.iot's [check] looks at, in its order. *)
Definition iot_verdicts (w : World DB) : list Confidence :=
  let self := AnalysisIotCheck.self in
  let ibe := AnalysisIotCheck.ibe in
  let method := get_param w self "METHOD" in
  let target := get_param w self "TARGET" in
  let activeroot := get_param w self "ACTIVEROOT" in
  let accuracy := get_param w self "ACCURACY" in
  let extract := get_param w self "EXTRACT" in
  [verdict (v_in method ["local"; "image"; "ssh"])]
  ++ (if veq method "image" then
        let w := set_param ibe "ACTIVEROOT" (get_param w self "ACTIVEROOT") w in
        let w := set_param ibe "BINFILE" (get_param w self "TARGET") w in
        let w := set_param ibe "TMPDIR" (get_param w self "TMPDIR") w in
        [fst (ibe_check E w);
         verdict (positive E extract || negative E extract)]
      else if veq method "ssh" then [verdict (get_ssh_connection E target)]
      else if veq method "local" then
        [verdict (String.eqb (get_file_info_type E activeroot target) "d")]
      else [])
  ++ [verdict (v_in accuracy ["none"; "major"; "minor"; "build"; "full"])].

(** The preconditions of packages.dpkg.installed's [check]. *)
Definition dpkg_verdicts (w : World DB) : list Confidence :=
  let activeroot := get_param w PackagesDpkgInstalled.self "ACTIVEROOT" in
  [if startswith "lin" (get_system_type_from_active_root E activeroot)
   then CHECK_SUCCESS else CHECK_UNLIKELY;
   verdict (can_read E activeroot PackagesDpkgInstalled.status_file)].

(** The preconditions of locasploit.update.vulnerabilities' [check]. *)
Definition luv_verdicts (w : World DB) : list Confidence :=
  let background :=
    get_param w LocasploitUpdateVulnerabilities.self "BACKGROUND" in
  [verdict (positive E background || negative E background);
   verdict (urllib_importable E)].

(** The sub-modules' [run] leaves the scheduler to its caller. *)
Definition keeps_scheduler : Prop :=
  forall name (w : World DB),
    scheduler (sub_run_effect E name w) = scheduler w.

(** The sub-modules' [run] leaves the thread objects it finds as they
    are. *)
Definition keeps_threads : Prop :=
  forall name (w : World DB) (i : nat) (th : thread),
    threads w !! i = Some th ->
    threads (sub_run_effect E name w) !! i = Some th.

(** The jobs [Thread.run] registers when one of the first two runs gave
    no handle. *)
Definition partial_chain (w : World DB) : list Job :=
  match sub_run_result E LUV.cve, sub_run_result E LUV.exploit with
  | Some h, None =>
      [mkJob (length (scheduler w)) LUV.cve (time_time E 0) h None
             LUV.default_waitfor]
  | None, Some h =>
      [mkJob (length (scheduler w)) LUV.exploit (time_time E 1) h None None]
  | _, _ => []
  end.

(** The jobs [Thread.run] registers when both gave one. *)
Definition full_chain (w : World DB) (h1 h2 : handle) : list Job :=
  let id1 := length (scheduler w) in
  let id2 := S id1 in
  [mkJob id1 LUV.cve (time_time E 0) h1 None LUV.default_waitfor;
   mkJob id2 LUV.exploit (time_time E 1) h2 None (Some [Some id1])]
  ++ match sub_run_result E LUV.cleanup with
     | Some h3 =>
         [mkJob (S id2) LUV.cleanup (time_time E 2) h3 None
                (Some [Some id1; Some id2])]
     | None => []
     end.

End Environment.

(** *** A sample environment and sample worlds *)

(** An environment in which everything probed succeeds, [read_file] gives
    [r] and the sub-modules' [run] returns [jobs name]. *)
Definition sample_env_of (r : read_result) (jobs : string -> option handle)
    : Env unit :=
  {| positive := fun v => v_in v ["yes"; "y"; "true"];
     negative := fun v => v_in v ["no"; "n"; "false"];
     ibe_check := fun w => (CHECK_SUCCESS, w);
     get_ssh_connection := fun _ => false;
     get_file_info_type := fun _ _ => "d";
     get_system_type_from_active_root := fun _ => "linux";
     can_read := fun _ _ => true;
     read_file := fun _ _ => r;
     urllib_importable := true;
     DB_ERROR := PropInt (-1);
     last_update := PropStr "2016-10-25";
     days_since := fun _ => Some 3%Z;
     this_year := 2016;
     time_time := fun n => Z.of_nat n;
     sub_run_result := jobs;
     sub_run_effect := fun _ w => w |}.

(** The status file cannot be read and every sub-module works in the
    foreground. *)
Definition sample_env : Env unit := sample_env_of IO_ERROR (fun _ => None).

Definition sample_status : string :=
  "Package: a" +:+ String (ascii_of_nat 10)
  ("Status: install ok installed" +:+ String (ascii_of_nat 10)
  ("Priority: optional" +:+ String (ascii_of_nat 10)
  ("Version: 1:1.0-2" +:+ String (ascii_of_nat 10)
  ("Package: b" +:+ String (ascii_of_nat 10)
  ("Status: deinstall ok config-files" +:+ String (ascii_of_nat 10)
  ("Version: 3.4" +:+ String (ascii_of_nat 10)
  "Package: c")))))).

(** analysis.iot set up for an image. *)
Definition iot_world : World unit :=
  {| tb := ∅; tb_writes := []; db := tt;
     params :=
       {[ AnalysisIotCheck.self :=
            list_to_map
              [("ACTIVEROOT", Some "/"); ("SILENT", Some "no");
               ("METHOD", Some "image"); ("TARGET", Some "/tmp/fw.bin");
               ("TMPDIR", Some "/tmp"); ("ACCURACY", Some "build");
               ("TAG", Some "fw"); ("EXTRACT", Some "yes");
               ("EPOCH", Some "no"); ("ALIASES", Some "yes")] ]};
     log := []; scheduler := []; threads := [] |}.

(** packages.dpkg.installed as analysis.iot sets it up. *)
Definition dpkg_world : World unit :=
  {| tb := ∅; tb_writes := []; db := tt;
     params :=
       {[ PackagesDpkgInstalled.self :=
            list_to_map
              [("SILENT", Some "yes"); ("ACTIVEROOT", Some "/");
               ("TAG", Some "fw:0_tmp_packages")] ]};
     log := []; scheduler := []; threads := [] |}.

(** locasploit.update.vulnerabilities with its default parameters. *)
Definition luv_world : World unit :=
  {| tb := ∅; tb_writes := []; db := tt;
     params :=
       {[ LocasploitUpdateVulnerabilities.self :=
            list_to_map [("SILENT", Some "no"); ("BACKGROUND", Some "yes")] ]};
     log := []; scheduler := []; threads := [] |}.

(** The same with BACKGROUND set to no. *)
Definition luv_world_foreground : World unit :=
  {| tb := ∅; tb_writes := []; db := tt;
     params :=
       {[ LocasploitUpdateVulnerabilities.self :=
            list_to_map [("SILENT", Some "no"); ("BACKGROUND", Some "no")] ]};
     log := []; scheduler := []; threads := [] |}.

End Aids.

(** ** More Python string methods *)

Module PyStrMore.

(** [s.split(sep)] for a one-character separator, [cur] being the piece
    read so far. *)
Fixpoint split_from (sep : ascii) (cur : string) (s : string) : list string :=
  match s with
  | EmptyString => [cur]
  | String c rest =>
      if Ascii.eqb c sep then cur :: split_from sep EmptyString rest
      else split_from sep (cur +:+ String c EmptyString) rest
  end.

Definition split (sep : ascii) (s : string) : list string :=
  split_from sep EmptyString s.

(** The white space of [str.strip] in the ASCII range. *)
Definition is_space_char (c : ascii) : bool :=
  existsb (Nat.eqb (nat_of_ascii c)) [9; 10; 11; 12; 13; 28; 29; 30; 31; 32]%nat.

Fixpoint lstrip (s : string) : string :=
  match s with
  | EmptyString => EmptyString
  | String c rest => if is_space_char c then lstrip rest else s
  end.

Fixpoint rstrip (s : string) : string :=
  match s with
  | EmptyString => EmptyString
  | String c rest =>
      match rstrip rest with
      | EmptyString => if is_space_char c then EmptyString
                       else String c EmptyString
      | String d r => String c (String d r)
      end
  end.

(** [s.strip()]. *)
Definition strip (s : string) : string := rstrip (lstrip s).

End PyStrMore.

(** ** analysis.iot: the alias table read at the head of [run] *)

Module AliasTable.
Import PyStr PyStrMore Framework.

(** The filter [x[0] not in ['#'] and len(x.strip()) > 0] of the list
    comprehension; [None] stands for the [IndexError] of [x[0]] on an
    empty line. *)
Definition keep_alias_line (x : string) : option bool :=
  match x with
  | EmptyString => None
  | String c _ =>
      Some (negb (existsb (Ascii.eqb c) ["#"%char])
            && Nat.ltb 0 (String.length (strip x)))
  end.

(** [[tuple(x.split(';')) for x in aliases_lines if ...]]. *)
Fixpoint alias_groups (aliases_lines : list string)
    : option (list (list string)) :=
  match aliases_lines with
  | [] => Some []
  | x :: rest =>
      match keep_alias_line x with
      | None => None
      | Some keep =>
          match alias_groups rest with
          | None => None
          | Some groups =>
              Some (if keep then split ";" x :: groups else groups)
          end
      end
  end.

(** The three lines of [run] that turn what [io.read_file] gave for
    package_aliases.csv into [package_aliases]. *)
Definition load_package_aliases (aliases_lines : read_result)
    : option (list (list string)) :=
  let aliases_lines :=
    match aliases_lines with
    | IO_ERROR => []
    | FileContent content => PackagesDpkgInstalled.splitlines content
    end in
  alias_groups aliases_lines.

End AliasTable.

(** ** Reading aids for the further properties *)

Module MoreAids.
Import PyStr PyStrMore AnalysisIot Framework.

(** Where a synthesized observation comes from. *)
Definition alias_of (packages : list package) (known : list (list string))
    (a : package) : Prop :=
  exists k p,
    In k known /\ In p packages
    /\ In (fst3 p) k /\ In (fst3 a) k /\ fst3 a <> fst3 p
    /\ snd3 a = snd3 p /\ thd3 a = thd3 p.

(** *** A dpkg status text, written out *)

Definition LF : ascii := ascii_of_nat 10.

(** The lines, each closed by a line feed. *)
Definition unlines (lines : list string) : string :=
  fold_right (fun l text => l +:+ String LF text) EmptyString lines.

Fixpoint no_linebreak (s : string) : bool :=
  match s with
  | EmptyString => true
  | String c rest =>
      negb (PackagesDpkgInstalled.is_linebreak c) && no_linebreak rest
  end.

(** The lines [run] keeps of the status file. *)
Definition selected (x : string) : bool :=
  startswith "Package" x || startswith "Status" x || startswith "Version" x.

(** One stanza of the status file: the package, its status, the fields
    between that are none of the three, its version. *)
Record stanza : Set := mkStanza {
  st_name : string;
  st_status : string;
  st_fields : list string;
  st_version : string
}.

Definition stanza_lines (st : stanza) : list string :=
  ["Package: " +:+ st_name st; "Status: " +:+ st_status st]
  ++ st_fields st
  ++ ["Version: " +:+ st_version st; EmptyString].

Definition status_text (stanzas : list stanza) : string :=
  unlines (flat_map stanza_lines stanzas).

Definition well_formed (st : stanza) : bool :=
  no_linebreak (st_name st) && no_linebreak (st_status st)
  && no_linebreak (st_version st)
  && forallb (fun x => no_linebreak x && negb (selected x)) (st_fields st).

(** The three lines of a stanza that [run] keeps. *)
Definition stanza_triple (st : stanza) : list string :=
  ["Package: " +:+ st_name st; "Status: " +:+ st_status st;
   "Version: " +:+ st_version st].

Definition installed (st : stanza) : bool :=
  contains "installed" (st_status st).

Definition observation (st : stanza) : package :=
  (st_name st, None, st_version st).

(** Where an observation of [parse_status] comes from. *)
Definition from_lines (lines : list string) (p : package) : Prop :=
  snd3 p = None
  /\ exists l1 l2,
       In l1 lines /\ In l2 lines
       /\ startswith "Package" l1 = true /\ startswith "Version" l2 = true
       /\ fst3 p = thd3 (partition " " l1)
       /\ thd3 p = thd3 (partition " " l2).


(** An environment without urllib and without a date of last update. *)
Definition offline_env : Env unit :=
  {| positive := fun v => v_in v ["yes"; "y"; "true"];
     negative := fun v => v_in v ["no"; "n"; "false"];
     ibe_check := fun w => (CHECK_SUCCESS, w);
     get_ssh_connection := fun _ => false;
     get_file_info_type := fun _ _ => "d";
     get_system_type_from_active_root := fun _ => "linux";
     can_read := fun _ _ => true;
     read_file := fun _ _ => IO_ERROR;
     urllib_importable := false;
     DB_ERROR := PropInt (-1);
     last_update := PropInt (-1);
     days_since := fun _ => None;
     this_year := 2016;
     time_time := fun n => Z.of_nat n;
     sub_run_result := fun _ => None;
     sub_run_effect := fun _ w => w |}.

End MoreAids.

(** * Properties *)

Import PyStr AnalysisIot Framework Aids.

(** ** Strings *)

Lemma partition_app_sep (sep : ascii) (e rest : string) :
  contains_char sep e = false ->
  partition sep (e +:+ String sep rest) = (e, String sep EmptyString, rest).
Proof.
  induction e as [|c e IH]; simpl.
  - intros _. now rewrite Ascii.eqb_refl.
  - intros H. apply orb_false_iff in H as [Hc He].
    rewrite Hc, (IH He). reflexivity.
Qed.

Lemma contains_char_app_sep (sep : ascii) (e rest : string) :
  contains_char sep (e +:+ String sep rest) = true.
Proof.
  induction e as [|c e IH]; simpl.
  - now rewrite Ascii.eqb_refl.
  - rewrite IH. apply orb_true_r.
Qed.

Lemma replace_app (a b : ascii) (s t : string) :
  replace a b (s +:+ t) = replace a b s +:+ replace a b t.
Proof. induction s as [|c s IH]; simpl; [reflexivity | now rewrite IH]. Qed.

Lemma replace_absent (a b : ascii) (s : string) :
  contains_char a s = false -> replace a b s = s.
Proof.
  induction s as [|c s IH]; simpl; [reflexivity|].
  intros H. apply orb_false_iff in H as [Hc Hs].
  now rewrite Hc, (IH Hs).
Qed.

Lemma truncate_full (version : string) : truncate "full" version = version.
Proof. reflexivity. Qed.

(** ** Version accuracy *)

(** C1: for "0.9.8j-r13.0.4" without epoch, [get_accurate_version] gives
    "0" at accuracy major, "0.9" at minor and "0.9.8j" at build. *)
Theorem get_accurate_version_documented_example :
  get_accurate_version "major" "0.9.8j-r13.0.4" false = "0" /\
  get_accurate_version "minor" "0.9.8j-r13.0.4" false = "0.9" /\
  get_accurate_version "build" "0.9.8j-r13.0.4" false = "0.9.8j".
Proof. repeat split; vm_compute; reflexivity. Qed.

(** C2: on the version "abc.1.2", whose major component "abc" is not
    numeric, [get_accurate_version] at accuracy minor returns the cut
    string "abc.1" and not the full "abc.1.2"; at build accuracy
    "abc.1.2-r1" loses its revision.  Only the major step is guarded by
    [isdigit]. *)
Theorem get_accurate_version_nonstandard_is_cut :
  isdigit (fst3 (partition "." "abc.1.2")) = false /\
  get_accurate_version "minor" "abc.1.2" false = "abc.1" /\
  get_accurate_version "build" "abc.1.2-r1" false = "abc.1.2" /\
  get_accurate_version "major" "abc.1.2" false = "abc.1.2".
Proof. repeat split; vm_compute; reflexivity. Qed.

(** At accuracy major the guard is there: a version whose major component
    is not numeric comes back as the whole string after the epoch step. *)
Lemma get_accurate_version_major_nonstandard (version : string) (use_epoch : bool) :
  isdigit (fst3 (partition "." (epoch_fold use_epoch version))) = false ->
  get_accurate_version "major" version use_epoch
  = epoch_fold use_epoch version.
Proof.
  intros H. unfold get_accurate_version, truncate.
  cbn [in_list existsb String.eqb Ascii.eqb Bool.eqb orb andb negb].
  now rewrite H.
Qed.

(** C5: at accuracy build, with a numeric major component and a minor and
    a build component present, the result is the major and minor segments
    as they stand, joined with the build segment cut at its first hyphen;
    at accuracy minor the minor segment is the one that is cut. *)
Theorem get_accurate_version_build_keeps_minor_suffix
    (version : string) (use_epoch : bool) :
  let majorparts := partition "." (epoch_fold use_epoch version) in
  let minorparts := partition "." (thd3 majorparts) in
  let buildparts := partition "." (thd3 minorparts) in
  isdigit (fst3 majorparts) = true ->
  String.eqb (fst3 minorparts) "" = false ->
  String.eqb (fst3 buildparts) "" = false ->
  get_accurate_version "build" version use_epoch
  = fst3 majorparts +:+ "." +:+ fst3 minorparts +:+ "."
    +:+ fst3 (partition "-" (fst3 buildparts))
  /\ get_accurate_version "minor" version use_epoch
     = fst3 majorparts +:+ "." +:+ fst3 (partition "-" (fst3 minorparts)).
Proof.
  intros majorparts minorparts buildparts Hmaj Hmin Hbuild.
  unfold get_accurate_version, truncate.
  cbn [in_list existsb orb andb].
  change (String.eqb "build" "none") with false.
  change (String.eqb "build" "major") with false.
  change (String.eqb "build" "minor") with false.
  change (String.eqb "build" "build") with true.
  change (String.eqb "minor" "none") with false.
  change (String.eqb "minor" "major") with false.
  change (String.eqb "minor" "minor") with true.
  change (String.eqb "minor" "build") with false.
  cbn [orb andb].
  fold majorparts. fold minorparts. fold buildparts.
  rewrite Hmin, Hbuild. cbn [negb andb orb join String.concat].
  split; reflexivity.
Qed.

Lemma get_accurate_version_build_keeps_minor_suffix_example :
  get_accurate_version "build" "1.2-x.3" false = "1.2-x.3" /\
  get_accurate_version "minor" "1.2-x.3" false = "1.2".
Proof.
  apply (get_accurate_version_build_keeps_minor_suffix "1.2-x.3" false);
    vm_compute; reflexivity.
Defined.

(** C6: the epoch step comes before any truncation.  For a version made of
    an epoch, a colon and the rest, [use_epoch] turns the colon into a
    period and its absence drops the epoch with the colon; at accuracy full
    the string so obtained is the result. *)
Theorem get_accurate_version_epoch
    (epoch rest accuracy : string) :
  contains_char ":" epoch = false ->
  get_accurate_version accuracy (epoch +:+ ":" +:+ rest) true
  = truncate accuracy (epoch +:+ "." +:+ replace ":" "." rest)
  /\ get_accurate_version accuracy (epoch +:+ ":" +:+ rest) false
     = truncate accuracy rest
  /\ get_accurate_version "full" (epoch +:+ ":" +:+ rest) true
     = epoch +:+ "." +:+ replace ":" "." rest
  /\ get_accurate_version "full" (epoch +:+ ":" +:+ rest) false = rest.
Proof.
  intros H.
  assert (Ht : epoch_fold true (epoch +:+ ":" +:+ rest)
               = epoch +:+ "." +:+ replace ":" "." rest).
  { unfold epoch_fold. rewrite replace_app, (replace_absent _ _ _ H).
    reflexivity. }
  assert (Hf : epoch_fold false (epoch +:+ ":" +:+ rest) = rest).
  { unfold epoch_fold.
    change (epoch +:+ ":" +:+ rest) with (epoch +:+ String ":" rest).
    rewrite contains_char_app_sep, (partition_app_sep _ _ _ H).
    reflexivity. }
  unfold get_accurate_version. rewrite Ht, Hf, !truncate_full. tauto.
Qed.

Lemma get_accurate_version_epoch_example :
  get_accurate_version "full" "2:1.0" true = "2.1.0" /\
  get_accurate_version "full" "2:1.0" false = "1.0".
Proof.
  pose proof (get_accurate_version_epoch "2" "1.0" "full" eq_refl)
    as (_ & _ & Ht & Hf).
  split; [exact Ht | exact Hf].
Defined.

(** ** Alias expansion *)

Lemma acc_app_nil_l {A B : Type} (a : list A * list B) :
  acc_app ([], []) a = a.
Proof. now destruct a. Qed.

Lemma acc_app_assoc {A B : Type} (a b c : list A * list B) :
  acc_app (acc_app a b) c = acc_app a (acc_app b c).
Proof. unfold acc_app; simpl. now rewrite <- !app_assoc. Qed.

Lemma scan_packages_acc k packages acc :
  scan_packages k packages acc
  = acc_app acc (scan_packages k packages ([], [])).
Proof.
  induction packages as [|p rest IH]; simpl.
  - unfold acc_app; simpl. now rewrite !app_nil_r; destruct acc.
  - destruct (in_list (fst3 p) k); [reflexivity | exact IH].
Qed.

Lemma fold_scan_acc packages known acc :
  fold_left (fun a k => scan_packages k packages a) known acc
  = acc_app acc (get_alias_packages packages known).
Proof.
  unfold get_alias_packages.
  revert acc. induction known as [|k ks IH]; intros acc; simpl.
  - unfold acc_app; simpl. now rewrite !app_nil_r; destruct acc.
  - rewrite IH, (IH (scan_packages k packages ([], []))).
    rewrite (scan_packages_acc k packages acc). apply acc_app_assoc.
Qed.

Lemma get_alias_packages_app packages ks1 ks2 :
  get_alias_packages packages (ks1 ++ ks2)
  = acc_app (get_alias_packages packages ks1)
            (get_alias_packages packages ks2).
Proof.
  unfold get_alias_packages at 1. rewrite fold_left_app.
  now rewrite fold_scan_acc.
Qed.

Lemma get_alias_packages_cons packages k ks :
  get_alias_packages packages (k :: ks)
  = acc_app (scan_packages k packages ([], []))
            (get_alias_packages packages ks).
Proof. unfold get_alias_packages at 1. simpl. apply fold_scan_acc. Qed.

Lemma scan_packages_first_match k pre p post :
  forallb (fun q => negb (in_list (fst3 q) k)) pre = true ->
  in_list (fst3 p) k = true ->
  scan_packages k (pre ++ p :: post) ([], [])
  = (map fst3 (synthesized k p), synthesized k p).
Proof.
  intros Hpre Hp. induction pre as [|q pre IH]; simpl.
  - now rewrite Hp.
  - simpl in Hpre. apply andb_true_iff in Hpre as [Hq Hpre].
    apply negb_true_iff in Hq. rewrite Hq. now apply IH.
Qed.

(** A group none of whose names is observed yields nothing. *)
Lemma scan_packages_no_match k packages :
  forallb (fun q => negb (in_list (fst3 q) k)) packages = true ->
  scan_packages k packages ([], []) = ([], []).
Proof.
  induction packages as [|q rest IH]; simpl; [reflexivity|].
  intros H. apply andb_true_iff in H as [Hq Hrest].
  apply negb_true_iff in Hq. rewrite Hq. now apply IH.
Qed.

Lemma synthesized_names k p :
  map fst3 (synthesized k p)
  = List.filter (fun x => negb (String.eqb x (fst3 p))) k.
Proof.
  unfold synthesized. rewrite map_map. simpl. apply map_id.
Qed.

(** C4: for each alias group [k], the first observation [p] in batch order
    whose name is in [k] is the one expanded, whatever follows it in the
    batch: the group adds one observation per name of [k] other than
    [p]'s, with [p]'s variant and version, and the names of these to the
    reported ones, between what the groups before and after [k] add. *)
Theorem get_alias_packages_first_match_only
    (pre post : list package) (p : package)
    (ks1 ks2 : list (list string)) (k : list string) :
  forallb (fun q => negb (in_list (fst3 q) k)) pre = true ->
  in_list (fst3 p) k = true ->
  let packages := pre ++ p :: post in
  let others := List.filter (fun x => negb (String.eqb x (fst3 p))) k in
  get_alias_packages packages (ks1 ++ k :: ks2)
  = (fst (get_alias_packages packages ks1) ++ others
       ++ fst (get_alias_packages packages ks2),
     snd (get_alias_packages packages ks1)
       ++ map (fun x => (x, snd3 p, thd3 p)) others
       ++ snd (get_alias_packages packages ks2)).
Proof.
  intros Hpre Hp packages others.
  rewrite get_alias_packages_app, get_alias_packages_cons.
  unfold packages. rewrite (scan_packages_first_match k pre p post Hpre Hp).
  rewrite synthesized_names. reflexivity.
Qed.

Lemma get_alias_packages_first_match_only_example :
  get_alias_packages
    [("busybox", None, "1.0"); ("kernel", None, "4.4"); ("kernel", None, "4.5")]
    [["kernel"; "linux_kernel"]]
  = (["linux_kernel"], [("linux_kernel", None, "4.4")]).
Proof.
  apply (get_alias_packages_first_match_only
           [("busybox", None, "1.0")] [("kernel", None, "4.5")]
           ("kernel", None, "4.4") [] [] ["kernel"; "linux_kernel"]);
    reflexivity.
Defined.

(** ** Confidence *)

Lemma cmin_failure_r (c : Confidence) : cmin c CHECK_FAILURE = CHECK_FAILURE.
Proof. now destruct c. Qed.

Lemma cmin_le_l (a b : Confidence) : cle (cmin a b) a.
Proof. destruct a, b; unfold cle; simpl; lia. Qed.

Lemma aggregate_le_start (vs : list Confidence) (start : Confidence) :
  cle (aggregate start vs) start.
Proof.
  unfold aggregate. revert start.
  induction vs as [|v vs IH]; intros start; simpl.
  - unfold cle; lia.
  - specialize (IH (cmin start v)). pose proof (cmin_le_l start v).
    unfold cle in *; lia.
Qed.

Lemma veq_image_in_methods (method : value) :
  veq method "image" = true -> v_in method ["local"; "image"; "ssh"] = true.
Proof. intros H. simpl. rewrite H. now destruct (veq method "local"). Qed.

Lemma veq_ssh_in_methods (method : value) :
  veq method "ssh" = true -> v_in method ["local"; "image"; "ssh"] = true.
Proof. intros H. simpl. rewrite H. now rewrite !orb_true_r. Qed.

Lemma veq_local_in_methods (method : value) :
  veq method "local" = true -> v_in method ["local"; "image"; "ssh"] = true.
Proof. intros H. simpl. now rewrite H. Qed.

Lemma not_in_methods (method : value) :
  veq method "image" = false -> veq method "ssh" = false ->
  veq method "local" = false ->
  v_in method ["local"; "image"; "ssh"] = false.
Proof. intros H1 H2 H3. simpl. now rewrite H1, H2, H3. Qed.

Section CheckResults.
Context {DB : Type} (E : Env DB).

Lemma iot_check_aggregate (silent : option bool) (w : World DB) :
  fst (AnalysisIotCheck.check E silent w)
  = aggregate CHECK_PROBABLY (iot_verdicts E w).
Proof.
  unfold AnalysisIotCheck.check, iot_verdicts, AnalysisIotCheck.check_accuracy,
    aggregate.
  set (acc_ok := v_in (get_param w AnalysisIotCheck.self "ACCURACY") _).
  set (method := get_param w AnalysisIotCheck.self "METHOD").
  destruct (veq method "image") eqn:Himg.
  - rewrite (veq_image_in_methods _ Himg). cbn [negb].
    destruct (ibe_check E _) as [c w'] eqn:Hibe. cbn [fst].
    destruct (positive E _ || negative E _), acc_ok, c; reflexivity.
  - destruct (veq method "ssh") eqn:Hssh.
    + rewrite (veq_ssh_in_methods _ Hssh). cbn [negb].
      destruct (get_ssh_connection E _), acc_ok; reflexivity.
    + destruct (veq method "local") eqn:Hloc.
      * rewrite (veq_local_in_methods _ Hloc). cbn [negb].
        destruct (String.eqb _ "d"), acc_ok; reflexivity.
      * rewrite (not_in_methods _ Himg Hssh Hloc). cbn [negb].
        destruct acc_ok; reflexivity.
Qed.

Lemma luv_check_aggregate (silent : option bool) (w : World DB) :
  fst (LocasploitUpdateVulnerabilities.check E silent w)
  = aggregate CHECK_PROBABLY (luv_verdicts E w).
Proof.
  unfold LocasploitUpdateVulnerabilities.check, luv_verdicts, aggregate.
  destruct (positive E _), (negative E _), (urllib_importable E); reflexivity.
Qed.

Lemma dpkg_check_aggregate (silent : option bool) (w : World DB) :
  fst (PackagesDpkgInstalled.check E silent w)
  = aggregate CHECK_SUCCESS (dpkg_verdicts E w).
Proof.
  unfold PackagesDpkgInstalled.check, dpkg_verdicts, aggregate.
  destruct (startswith "lin" _), (can_read E _ _); reflexivity.
Qed.

End CheckResults.

(** The aggregate is the minimum: below the start value and every
    verdict, and one of them. *)
Lemma aggregate_is_min (vs : list Confidence) (start : Confidence) :
  cle (aggregate start vs) start
  /\ Forall (cle (aggregate start vs)) vs
  /\ (aggregate start vs = start \/ In (aggregate start vs) vs).
Proof.
  split; [apply aggregate_le_start|].
  revert start. induction vs as [|v vs IH]; intros start.
  - split; [constructor | now left].
  - destruct (IH (cmin start v)) as [Hall Hin].
    change (aggregate start (v :: vs)) with (aggregate (cmin start v) vs).
    pose proof (aggregate_le_start vs (cmin start v)) as Hle.
    split.
    + constructor; [|exact Hall].
      revert Hle. unfold cle, cmin.
      destruct (rank v <? rank start)%Z eqn:Hlt; [lia|].
      apply Z.ltb_ge in Hlt. lia.
    + destruct Hin as [Heq | Hin]; [|right; now right].
      rewrite Heq. unfold cmin.
      destruct (rank v <? rank start)%Z; [right; now left | now left].
Qed.

(** C3: analysis.iot's and locasploit.update.vulnerabilities' [check]
    return the minimum of PROBABLY and their verdicts, so never more than
    PROBABLY; packages.dpkg.installed's [check] starts from SUCCESS, returns
    the minimum of SUCCESS and its verdicts, and that is SUCCESS on a Linux
    root whose status file can be read. *)
Theorem check_aggregates_by_min {DB : Type} (E : Env DB)
    (silent : option bool) (w : World DB) :
  let iot := fst (AnalysisIotCheck.check E silent w) in
  let luv := fst (LocasploitUpdateVulnerabilities.check E silent w) in
  let dpkg := fst (PackagesDpkgInstalled.check E silent w) in
  let activeroot := get_param w PackagesDpkgInstalled.self "ACTIVEROOT" in
  iot = aggregate CHECK_PROBABLY (iot_verdicts E w)
  /\ cle iot CHECK_PROBABLY
  /\ luv = aggregate CHECK_PROBABLY (luv_verdicts E w)
  /\ cle luv CHECK_PROBABLY
  /\ dpkg = aggregate CHECK_SUCCESS (dpkg_verdicts E w)
  /\ dpkg
     = if negb (can_read E activeroot PackagesDpkgInstalled.status_file)
       then CHECK_FAILURE
       else if negb (startswith "lin"
                       (get_system_type_from_active_root E activeroot))
            then CHECK_UNLIKELY else CHECK_SUCCESS.
Proof.
  cbv zeta.
  rewrite iot_check_aggregate, luv_check_aggregate, dpkg_check_aggregate.
  repeat split; try apply aggregate_le_start.
  unfold dpkg_verdicts, aggregate.
  destruct (startswith "lin" _), (can_read E _ _); reflexivity.
Qed.

(** C3, as stated, fails on packages.dpkg.installed: on a readable Linux
    root its [check] answers SUCCESS, which is above PROBABLY and is not
    the minimum of PROBABLY and the verdicts. *)
Lemma dpkg_check_exceeds_probably :
  let r := fst (PackagesDpkgInstalled.check sample_env None dpkg_world) in
  r = CHECK_SUCCESS
  /\ ~ cle r CHECK_PROBABLY
  /\ r <> aggregate CHECK_PROBABLY (dpkg_verdicts sample_env dpkg_world).
Proof.
  cbv zeta.
  assert (H : fst (PackagesDpkgInstalled.check sample_env None dpkg_world)
              = CHECK_SUCCESS) by (vm_compute; reflexivity).
  rewrite H. split; [reflexivity|]. split.
  - unfold cle; simpl; lia.
  - vm_compute. discriminate.
Qed.

(** ** Frame of [check] *)

Lemma same_stores_refl {DB : Type} (w : World DB) : same_stores w w.
Proof. now unfold same_stores. Qed.


Lemma same_stores_log_unless {DB : Type} silent e (w : World DB) :
  same_stores w (log_unless silent e w).
Proof. destruct silent; now unfold same_stores. Qed.

Lemma same_stores_set_param {DB : Type} m k v (w : World DB) :
  same_stores w (set_param m k v w).
Proof. now unfold same_stores. Qed.

Create HintDb frame.

#[local] Hint Resolve same_stores_refl same_stores_log_unless
  same_stores_set_param : frame.

Section CheckFrame.
Context {DB : Type} (E : Env DB).




Hypothesis ibe_check_frame : forall w, same_stores w (snd (ibe_check E w)).


End CheckFrame.



(** ** packages.dpkg.installed: run *)

Example parse_status_example :
  PackagesDpkgInstalled.parse_status sample_status = [("a", None, "1:1.0-2")].
Proof. vm_compute. reflexivity. Qed.

Example dpkg_run_example :
  let r := PackagesDpkgInstalled.run
             (sample_env_of (FileContent sample_status) (fun _ => None))
             dpkg_world in
  fst r = None
  /\ tb (snd r) !! Some "fw:0_tmp_packages" = Some [("a", None, "1:1.0-2")]
  /\ tb_writes (snd r)
     = [(Some "fw:0_tmp_packages", [("a", None, "1:1.0-2")])]
  /\ log (snd r) = [].
Proof. vm_compute. auto. Qed.

Example dpkg_run_io_error_example :
  PackagesDpkgInstalled.run sample_env dpkg_world
  = (None, log_add (LogErr "Cannot read /var/lib/dpkg/status!") dpkg_world).
Proof. reflexivity. Qed.

(** C8: [run] of packages.dpkg.installed returns [None]; when the read of
    /var/lib/dpkg/status gives [IO_ERROR] it logs an error and nothing else
    changes, the scratch store seeing no assignment; when the read gives
    the text, the scratch store is the old one with TAG bound to the whole
    list of results, by one assignment. *)
Theorem dpkg_run_writes_tag_once_or_never {DB : Type} (E : Env DB)
    (w : World DB) :
  let self := PackagesDpkgInstalled.self in
  let r := PackagesDpkgInstalled.run E w in
  fst r = None /\
  match read_file E (get_param w self "ACTIVEROOT")
          PackagesDpkgInstalled.status_file with
  | IO_ERROR =>
      snd r = log_add (LogErr "Cannot read /var/lib/dpkg/status!") w
      /\ tb (snd r) = tb w
      /\ tb_writes (snd r) = tb_writes w
  | FileContent content =>
      tb (snd r) = <[get_param w self "TAG" := PackagesDpkgInstalled.parse_status content]> (tb w)
      /\ tb_writes (snd r)
         = tb_writes w ++ [(get_param w self "TAG", PackagesDpkgInstalled.parse_status content)]
      /\ db (snd r) = db w
  end.
Proof.
  cbv zeta. unfold PackagesDpkgInstalled.run.
  destruct (read_file E _ _) as [|content]; simpl.
  - auto.
  - destruct (positive E _); simpl; auto.
Qed.

(** ** locasploit.update.vulnerabilities: Thread.run and run *)

Ltac world_simpl :=
  cbn [threads scheduler log params tb tb_writes db
       set_param log_add set_scheduler set_threads
       LUV.scheduler_add LUV.run_sub fst snd].

Section ThreadRun.
Context {DB : Type} (E : Env DB).

Lemma Thread_run_keeps_threads (t : thread) (w : World DB)
    (i : nat) (th : thread) :
  keeps_threads E ->
  threads w !! i = Some th ->
  threads (snd (LUV.Thread_run E t w)) !! i = Some th.
Proof.
  intros Hk Hth. unfold LUV.Thread_run.
  destruct (th_terminate t); [exact Hth|].
  destruct (negb (urllib_importable E)); [exact Hth|].
  destruct (LUV.updated_lately E _) as [e | lately]; [exact Hth|].
  destruct lately;
    unfold LUV.run_sub;
    destruct (sub_run_result E LUV.cve), (sub_run_result E LUV.exploit),
      (sub_run_result E LUV.cleanup);
    world_simpl;
    repeat (apply Hk; world_simpl); exact Hth.
Qed.

Lemma Thread_run_partial (t : thread) (w : World DB) (lately : bool) :
  keeps_scheduler E ->
  th_terminate t = false ->
  urllib_importable E = true ->
  LUV.updated_lately E (last_update E) = inr lately ->
  sub_run_result E LUV.cve = None \/ sub_run_result E LUV.exploit = None ->
  fst (LUV.Thread_run E t w) = LUV.Raised LUV.TypeError
  /\ scheduler (snd (LUV.Thread_run E t w)) = scheduler w ++ partial_chain E w.
Proof.
  intros Hk Hterm Himp Hdate Hnone.
  unfold LUV.Thread_run, partial_chain. rewrite Hterm, Himp, Hdate.
  cbn [negb].
  unfold LUV.run_sub.
  destruct (sub_run_result E LUV.cve) as [h1|],
           (sub_run_result E LUV.exploit) as [h2|];
    [destruct Hnone; discriminate | | |];
    destruct lately; world_simpl; rewrite ?Hk; world_simpl;
    rewrite ?Hk; world_simpl; rewrite ?Hk; world_simpl;
    rewrite ?app_nil_r; auto.
Qed.

Lemma Thread_run_full (t : thread) (w : World DB) (lately : bool)
    (h1 h2 : handle) :
  keeps_scheduler E ->
  th_terminate t = false ->
  urllib_importable E = true ->
  LUV.updated_lately E (last_update E) = inr lately ->
  sub_run_result E LUV.cve = Some h1 ->
  sub_run_result E LUV.exploit = Some h2 ->
  fst (LUV.Thread_run E t w) = LUV.Returned
  /\ scheduler (snd (LUV.Thread_run E t w)) = scheduler w ++ full_chain E w h1 h2.
Proof.
  intros Hk Hterm Himp Hdate H1 H2.
  unfold LUV.Thread_run, full_chain. rewrite Hterm, Himp, Hdate.
  cbn [negb].
  unfold LUV.run_sub. rewrite H1, H2.
  destruct (sub_run_result E LUV.cleanup) as [h3|];
    destruct lately; world_simpl; rewrite ?Hk; world_simpl;
    rewrite ?Hk; world_simpl; rewrite ?Hk; world_simpl;
    rewrite ?length_app; cbn [length];
    rewrite ?Nat.add_1_r, <- ?app_assoc; auto.
Qed.

Lemma Thread_run_returned (t : thread) (w : World DB) :
  th_terminate t = false ->
  fst (LUV.Thread_run E t w) = LUV.Returned ->
  is_Some (sub_run_result E LUV.cve)
  /\ is_Some (sub_run_result E LUV.exploit).
Proof.
  intros Hterm. unfold LUV.Thread_run. rewrite Hterm.
  destruct (negb (urllib_importable E)); [discriminate|].
  destruct (LUV.updated_lately E _) as [e | lately]; [discriminate|].
  unfold LUV.run_sub.
  destruct (sub_run_result E LUV.cve) as [h1|],
           (sub_run_result E LUV.exploit) as [h2|];
    destruct lately; world_simpl; try discriminate; intros _; split; eauto.
Qed.

(** Without urllib a thread that is not told to terminate ends at the
    import: nothing is logged, written, run or registered. *)
Lemma Thread_run_without_urllib (t : thread) (w : World DB) :
  th_terminate t = false ->
  urllib_importable E = false ->
  LUV.Thread_run E t w = (LUV.Raised LUV.ImportError, w).
Proof.
  intros Hterm Himp. unfold LUV.Thread_run. now rewrite Hterm, Himp.
Qed.

End ThreadRun.

(** C10: in [Thread.run], once the two runs are reached (the thread is
    not told to terminate, urllib can be imported and the date test does
    not raise), a cve-update or exploit-update run that returns [None]
    leaves [lucid] or [lue] at [None], the sum [lucid+lue] raises
    [TypeError] and the cleanup job is not registered: the scheduler holds
    what it held plus the job of the run that gave a handle, if any.  A
    [Thread.run] that is not told to terminate returns only when both runs
    gave a handle, and then the chain is registered. *)
Theorem thread_run_registers_chain_only_with_both_handles
    {DB : Type} (E : Env DB) (t : thread) (w : World DB) (lately : bool) :
  keeps_scheduler E ->
  th_terminate t = false ->
  urllib_importable E = true ->
  LUV.updated_lately E (last_update E) = inr lately ->
  let r := LUV.Thread_run E t w in
  (sub_run_result E LUV.cve = None \/ sub_run_result E LUV.exploit = None ->
   fst r = LUV.Raised LUV.TypeError
   /\ scheduler (snd r) = scheduler w ++ partial_chain E w
   /\ Forall (fun j => job_name j <> LUV.cleanup) (partial_chain E w))
  /\ (fst r = LUV.Returned ->
      is_Some (sub_run_result E LUV.cve)
      /\ is_Some (sub_run_result E LUV.exploit))
  /\ (forall h1 h2,
      sub_run_result E LUV.cve = Some h1 ->
      sub_run_result E LUV.exploit = Some h2 ->
      fst r = LUV.Returned
      /\ scheduler (snd r) = scheduler w ++ full_chain E w h1 h2).
Proof.
  intros Hk Hterm Himp Hdate r. subst r. split; [|split].
  - intros Hnone.
    destruct (Thread_run_partial E t w lately Hk Hterm Himp Hdate Hnone)
      as [Hr Hs].
    split; [exact Hr|]. split; [exact Hs|].
    unfold partial_chain.
    destruct (sub_run_result E LUV.cve), (sub_run_result E LUV.exploit);
      repeat constructor; simpl; discriminate.
  - now apply Thread_run_returned.
  - intros h1 h2 H1 H2. now apply (Thread_run_full E t w lately).
Qed.

Lemma thread_run_registers_chain_only_with_both_handles_example :
  let r := LUV.Thread_run sample_env (mkThread false false false Started)
             luv_world_foreground in
  fst r = LUV.Raised LUV.TypeError /\ scheduler (snd r) = [].
Proof.
  destruct (thread_run_registers_chain_only_with_both_handles
              sample_env (mkThread false false false Started)
              luv_world_foreground true)
    as [Hnone _].
  - intros name w0. reflexivity.
  - reflexivity.
  - reflexivity.
  - reflexivity.
  - destruct Hnone as (Hr & Hs & _); [left; reflexivity|].
    split; [exact Hr | exact Hs].
Defined.

(** The cve-update run gives a handle, the exploit-update run none: the
    first job is registered, then the sum raises. *)
Example thread_run_one_handle_example :
  let E := sample_env_of IO_ERROR
             (fun name => if String.eqb name LUV.cve then Some 7 else None) in
  let r := LUV.Thread_run E (mkThread false true false Started) luv_world in
  fst r = LUV.Raised LUV.TypeError
  /\ scheduler (snd r) = [mkJob 0 LUV.cve 0 7 None (Some [])].
Proof. vm_compute. auto. Qed.

(** Both give a handle, and so does cleanup: the chain of three. *)
Example thread_run_three_handles_example :
  let E := sample_env_of IO_ERROR
             (fun name => if String.eqb name LUV.cve then Some 7
                          else if String.eqb name LUV.exploit then Some 8
                          else Some 9) in
  let r := LUV.Thread_run E (mkThread false true false Started) luv_world in
  fst r = LUV.Returned
  /\ scheduler (snd r)
     = [mkJob 0 LUV.cve 0 7 None (Some []);
        mkJob 1 LUV.exploit 1 8 None (Some [Some 0]);
        mkJob 2 LUV.cleanup 2 9 None (Some [Some 0; Some 1])].
Proof. vm_compute. auto. Qed.

Lemma get_param_set_threads {DB : Type} l (w : World DB) m k :
  get_param (set_threads l w) m k = get_param w m k.
Proof. reflexivity. Qed.

Lemma set_status_lookup {DB : Type} (w : World DB) t st th :
  threads w !! t = Some th ->
  threads (LUV.set_status t st w) !! t
  = Some (mkThread (th_silent th) (th_background th) (th_terminate th) st).
Proof.
  intros H. unfold LUV.set_status. cbn [threads set_threads].
  now rewrite list_lookup_alter_eq, H.
Qed.

(** C7: [run] of locasploit.update.vulnerabilities with a positive
    BACKGROUND returns the thread object it has just created and has not
    started: nothing but the new object, in its initial state, is added to
    the world.  With a BACKGROUND that is not positive it starts the
    thread, waits for its end and returns [None]. *)
Theorem luv_run_background_returns_unstarted_thread
    {DB : Type} (E : Env DB) (w : World DB) :
  keeps_threads E ->
  let silent := positive E (get_param w LUV.self "SILENT") in
  let background := positive E (get_param w LUV.self "BACKGROUND") in
  let t := length (threads w) in
  let th := mkThread silent background false Initial in
  let created := set_threads (threads w ++ [th]) w in
  let r := LUV.run E w in
  (background = true ->
   r = (Some t, created)
   /\ threads (snd r) !! t = Some th
   /\ th_status th = Initial)
  /\ (background = false ->
      fst r = None
      /\ snd r
         = LUV.set_status t Finished
             (snd (LUV.Thread_run E th (LUV.set_status t Started created)))
      /\ threads (snd r) !! t
         = Some (mkThread silent background false Finished)).
Proof.
  intros Hk silent background t th created r.
  assert (Hcreated : threads created !! t = Some th).
  { unfold created. cbn [threads set_threads].
    now apply list_lookup_middle. }
  split; intros Hbg.
  - assert (Hif : forall (A : Type) (x y : A),
               (if positive E (get_param w LUV.self "BACKGROUND")
                then x else y) = x)
      by (intros A x y; fold background; now rewrite Hbg).
    assert (Hr : r = (Some t, created)).
    { unfold r, LUV.run. rewrite get_param_set_threads, Hif. reflexivity. }
    rewrite Hr. auto.
  - assert (Hif : forall (A : Type) (x y : A),
               (if positive E (get_param w LUV.self "BACKGROUND")
                then x else y) = y)
      by (intros A x y; fold background; now rewrite Hbg).
    assert (Hr : r = (None,
               LUV.set_status t Finished
                 (snd (LUV.Thread_run E th (LUV.set_status t Started created))))).
    { unfold r, LUV.run. rewrite get_param_set_threads, Hif.
      fold silent. fold background. fold th. fold t. fold created.
      now destruct (LUV.Thread_run E th _). }
    rewrite Hr. cbn [fst snd]. split; [reflexivity|]. split; [reflexivity|].
    rewrite (set_status_lookup _ t Finished
               (mkThread silent background false Started)); [reflexivity|].
    apply Thread_run_keeps_threads; [exact Hk|].
    now rewrite (set_status_lookup created t Started th Hcreated).
Qed.

Lemma luv_run_background_returns_unstarted_thread_example :
  (LUV.run sample_env luv_world
   = (Some 0,
      set_threads [mkThread false true false Initial] luv_world))
  /\ (fst (LUV.run sample_env luv_world_foreground) = None
      /\ threads (snd (LUV.run sample_env luv_world_foreground)) !! 0
         = Some (mkThread false false false Finished)).
Proof.
  split.
  - destruct (luv_run_background_returns_unstarted_thread
                sample_env luv_world) as [Hbg _].
    + intros name w0 i th H. exact H.
    + destruct Hbg as (Hr & _); [reflexivity|]. exact Hr.
  - destruct (luv_run_background_returns_unstarted_thread
                sample_env luv_world_foreground) as [_ Hfg].
    + intros name w0 i th H. exact H.
    + destruct Hfg as (Hr & _ & Hth); [reflexivity|].
      split; [exact Hr | exact Hth].
Defined.

(** C7, as stated, fails: with the default BACKGROUND of yes the thread
    object that [run] returns has not been started. *)
Lemma luv_run_returns_thread_not_started :
  let r := LUV.run sample_env luv_world in
  positive sample_env (get_param luv_world LUV.self "BACKGROUND") = true
  /\ fst r = Some 0
  /\ threads (snd r) !! 0 = Some (mkThread false true false Initial)
  /\ ~ (exists th, threads (snd r) !! 0 = Some th /\ th_status th <> Initial).
Proof.
  cbv zeta.
  assert (Hr : LUV.run sample_env luv_world
               = (Some 0,
                  set_threads [mkThread false true false Initial] luv_world))
    by (vm_compute; reflexivity).
  rewrite Hr. cbn [fst snd threads set_threads].
  split; [vm_compute; reflexivity|]. split; [reflexivity|].
  split; [reflexivity|].
  intros (th & Hth & Hst). simpl in Hth. injection Hth as <-.
  now apply Hst.
Qed.

(** * Further properties *)

Import PyStrMore MoreAids.

(** ** More on strings *)

Lemma append_String (c : ascii) (s t : string) :
  String c s +:+ t = String c (s +:+ t).
Proof. reflexivity. Qed.

Lemma append_nil_l (t : string) : "" +:+ t = t.
Proof. reflexivity. Qed.

Lemma prefix_nil_l (s : string) : String.prefix "" s = true.
Proof. now destruct s. Qed.

Lemma prefix_refl (s : string) : String.prefix s s = true.
Proof.
  induction s as [|c s IH]; simpl; [reflexivity|].
  destruct (ascii_dec c c); [exact IH | contradiction].
Qed.

Lemma prefix_app_r (s t : string) : String.prefix s (s +:+ t) = true.
Proof.
  induction s as [|c s IH]; [apply prefix_nil_l|].
  rewrite append_String. simpl.
  destruct (ascii_dec c c); [exact IH | contradiction].
Qed.

Lemma prefix_app_l (a s t : string) :
  String.prefix s t = true -> String.prefix (a +:+ s) (a +:+ t) = true.
Proof.
  intros H. induction a as [|c a IH]; [exact H|].
  rewrite !append_String. simpl.
  destruct (ascii_dec c c); [exact IH | contradiction].
Qed.

Lemma prefix_trans (a b c : string) :
  String.prefix a b = true -> String.prefix b c = true ->
  String.prefix a c = true.
Proof.
  revert b c. induction a as [|x a IH]; intros b c Hab Hbc;
    [apply prefix_nil_l|].
  destruct b as [|y b]; [discriminate|]. destruct c as [|z c].
  - simpl in Hbc. discriminate.
  - simpl in *. destruct (ascii_dec x y) as [->|]; [|discriminate].
    destruct (ascii_dec y z) as [->|]; [|discriminate].
    now apply (IH b c).
Qed.

Lemma contains_char_prefix (c : ascii) (s t : string) :
  String.prefix s t = true -> contains_char c t = false ->
  contains_char c s = false.
Proof.
  revert t. induction s as [|x s IH]; intros t Hp Ht; [reflexivity|].
  destruct t as [|y t]; [discriminate|]. simpl in *.
  destruct (ascii_dec x y) as [->|]; [|discriminate].
  apply orb_false_iff in Ht as [Hy Ht]. rewrite Hy. simpl. now apply (IH t).
Qed.

(** [partition] cuts its argument in three without losing a character. *)
Lemma partition_concat (sep : ascii) (s : string) :
  fst3 (partition sep s) +:+ snd3 (partition sep s) +:+ thd3 (partition sep s)
  = s.
Proof.
  induction s as [|c s IH]; simpl; [reflexivity|].
  destruct (Ascii.eqb c sep) eqn:Hc.
  - apply Ascii.eqb_eq in Hc. now subst.
  - destruct (partition sep s) as [[h m] t].
    unfold fst3, snd3, thd3 in *. simpl in *. now rewrite append_String, IH.
Qed.

(** Either the separator was found, or nothing follows. *)
Lemma partition_sep (sep : ascii) (s : string) :
  snd3 (partition sep s) = String sep ""
  \/ (snd3 (partition sep s) = "" /\ thd3 (partition sep s) = "").
Proof.
  induction s as [|c s IH]; simpl; [now right|].
  destruct (Ascii.eqb c sep); simpl; [now left | exact IH].
Qed.

Lemma partition_fst_prefix (sep : ascii) (s : string) :
  String.prefix (fst3 (partition sep s)) s = true.
Proof.
  rewrite <- (partition_concat sep s) at 2. apply prefix_app_r.
Qed.

Lemma partition_absent (sep : ascii) (s : string) :
  contains_char sep s = false -> partition sep s = (s, "", "").
Proof.
  induction s as [|c s IH]; simpl; [reflexivity|].
  intros H. apply orb_false_iff in H as [Hc Hs].
  rewrite Hc, (IH Hs). reflexivity.
Qed.

Lemma digit_is_no_hyphen (c : ascii) :
  is_digit_char c = true -> Ascii.eqb c "-" = false.
Proof.
  intros H. destruct (Ascii.eqb c "-") eqn:E; [|reflexivity].
  apply Ascii.eqb_eq in E. subst. discriminate.
Qed.

Lemma all_digits_no_hyphen (s : string) :
  all_digits s = true -> contains_char "-" s = false.
Proof.
  induction s as [|c s IH]; simpl; [reflexivity|].
  intros H. apply andb_true_iff in H as [Hc Hs].
  now rewrite (digit_is_no_hyphen c Hc), (IH Hs).
Qed.

Lemma isdigit_all_digits (s : string) : isdigit s = true -> all_digits s = true.
Proof. destruct s; [discriminate | trivial]. Qed.

Lemma isdigit_partition_hyphen (s : string) :
  isdigit s = true -> fst3 (partition "-" s) = s.
Proof.
  intros H. rewrite partition_absent; [reflexivity|].
  now apply all_digits_no_hyphen, isdigit_all_digits.
Qed.

Lemma replace_removes (a b : ascii) (s : string) :
  Ascii.eqb b a = false -> contains_char a (replace a b s) = false.
Proof.
  intros Hab. induction s as [|c s IH]; simpl; [reflexivity|].
  destruct (Ascii.eqb c a) eqn:Hc; [now rewrite Hab | now rewrite Hc].
Qed.

(** ** More on version accuracy *)

Section TruncateSteps.
Variable version : string.

Let majorparts := partition "." version.
Let minorparts := partition "." (thd3 majorparts).
Let buildparts := partition "." (thd3 minorparts).

Lemma version_split_major :
  thd3 majorparts <> "" ->
  version = fst3 majorparts +:+ "." +:+ thd3 majorparts.
Proof.
  intros H. pose proof (partition_concat "." version) as Hc.
  destruct (partition_sep "." version) as [Hs | [_ Ht]].
  - fold majorparts in Hc, Hs. now rewrite Hs in Hc.
  - now fold majorparts in Ht.
Qed.

Lemma version_split_minor :
  thd3 minorparts <> "" ->
  thd3 majorparts = fst3 minorparts +:+ "." +:+ thd3 minorparts.
Proof.
  intros H. pose proof (partition_concat "." (thd3 majorparts)) as Hc.
  destruct (partition_sep "." (thd3 majorparts)) as [Hs | [_ Ht]].
  - fold minorparts in Hc, Hs. now rewrite Hs in Hc.
  - now fold minorparts in Ht.
Qed.

Lemma nonempty_fst_thd (sep : ascii) (s : string) :
  String.eqb (fst3 (partition sep s)) "" = false -> s <> "".
Proof. intros H ->. discriminate. Qed.

Lemma major_step_prefix :
  String.prefix (fst3 (partition "-" (fst3 majorparts))) version = true.
Proof.
  eapply prefix_trans; [apply partition_fst_prefix|].
  apply partition_fst_prefix.
Qed.

Lemma minor_step_prefix :
  String.eqb (fst3 minorparts) "" = false ->
  String.prefix
    (join "." [fst3 majorparts; fst3 (partition "-" (fst3 minorparts))])
    version = true.
Proof.
  intros Hm. apply nonempty_fst_thd in Hm.
  rewrite (version_split_major Hm) at 1.
  cbn [join String.concat].
  apply prefix_app_l, (prefix_app_l ".").
  eapply prefix_trans; [apply partition_fst_prefix|].
  apply partition_fst_prefix.
Qed.

Lemma build_step_prefix :
  String.eqb (fst3 buildparts) "" = false ->
  String.prefix
    (join "." [fst3 majorparts; fst3 minorparts;
               fst3 (partition "-" (fst3 buildparts))])
    version = true.
Proof.
  intros Hb. apply nonempty_fst_thd in Hb.
  assert (Hm : thd3 majorparts <> "").
  { intros E. apply Hb. unfold minorparts. now rewrite E. }
  rewrite (version_split_major Hm) at 1.
  rewrite (version_split_minor Hb).
  cbn [join String.concat].
  apply prefix_app_l, (prefix_app_l "."), prefix_app_l, (prefix_app_l ".").
  eapply prefix_trans; [apply partition_fst_prefix|].
  apply partition_fst_prefix.
Qed.

Lemma truncate_prefix (accuracy : string) :
  String.prefix (truncate accuracy version) version = true.
Proof.
  unfold truncate. fold majorparts. fold minorparts. fold buildparts.
  destruct (String.eqb accuracy "none"); [apply prefix_nil_l|].
  destruct (in_list accuracy ["major"; "minor"; "build"]);
    [|apply prefix_refl].
  cbn [andb].
  destruct (String.eqb accuracy "build"); cbn [andb].
  - destruct (String.eqb (fst3 buildparts) "") eqn:Hb; cbn [negb].
    + destruct (in_list accuracy ["minor"; "build"]); cbn [andb].
      * destruct (String.eqb (fst3 minorparts) "") eqn:Hm; cbn [negb].
        -- destruct (isdigit (fst3 majorparts));
             [apply major_step_prefix | apply prefix_refl].
        -- now apply minor_step_prefix.
      * destruct (isdigit (fst3 majorparts));
          [apply major_step_prefix | apply prefix_refl].
    + now apply build_step_prefix.
  - destruct (in_list accuracy ["minor"; "build"]); cbn [andb].
    + destruct (String.eqb (fst3 minorparts) "") eqn:Hm; cbn [negb].
      * destruct (isdigit (fst3 majorparts));
          [apply major_step_prefix | apply prefix_refl].
      * now apply minor_step_prefix.
    + destruct (isdigit (fst3 majorparts));
        [apply major_step_prefix | apply prefix_refl].
Qed.

End TruncateSteps.

(** X1: whatever the accuracy, [get_accurate_version] returns a prefix of
    the version left by the epoch step: truncation only drops a tail. *)
Theorem get_accurate_version_is_prefix
    (accuracy version : string) (use_epoch : bool) :
  String.prefix (get_accurate_version accuracy version use_epoch)
                (epoch_fold use_epoch version) = true.
Proof. unfold get_accurate_version. apply truncate_prefix. Qed.

(** X2: with the epoch taken into account, the result holds no colon,
    whatever the accuracy and however many colons the version has. *)
Theorem get_accurate_version_epoch_no_colon (accuracy version : string) :
  contains_char ":" (get_accurate_version accuracy version true) = false.
Proof.
  unfold get_accurate_version.
  eapply contains_char_prefix; [apply truncate_prefix|].
  unfold epoch_fold. now apply replace_removes.
Qed.

(** X3: a version that has no period after the epoch step is never cut,
    not even at its hyphen: every accuracy but none returns it whole. *)
Theorem get_accurate_version_no_period
    (accuracy version : string) (use_epoch : bool) :
  contains_char "." (epoch_fold use_epoch version) = false ->
  String.eqb accuracy "none" = false ->
  get_accurate_version accuracy version use_epoch
  = epoch_fold use_epoch version.
Proof.
  intros Hdot Hnone. unfold get_accurate_version, truncate.
  rewrite Hnone, (partition_absent _ _ Hdot).
  change (thd3 (epoch_fold use_epoch version, "", "")) with "".
  change (fst3 (epoch_fold use_epoch version, "", ""))
    with (epoch_fold use_epoch version).
  cbn [partition fst3 thd3 fst snd String.eqb negb andb].
  rewrite !andb_false_r.
  destruct (in_list accuracy ["major"; "minor"; "build"]); [|reflexivity].
  cbn [andb].
  destruct (isdigit (epoch_fold use_epoch version)) eqn:Hd; [|reflexivity].
  now apply isdigit_partition_hyphen.
Qed.

Lemma get_accurate_version_no_period_example :
  get_accurate_version "major" "1:5-r1" false = "5-r1".
Proof.
  apply (get_accurate_version_no_period "major" "1:5-r1" false); reflexivity.
Defined.

(** X4: at accuracy major a numeric major component is the result, and
    the result is then a string of digits. *)
Theorem get_accurate_version_major_numeric
    (version : string) (use_epoch : bool) :
  let major := fst3 (partition "." (epoch_fold use_epoch version)) in
  isdigit major = true ->
  get_accurate_version "major" version use_epoch = major
  /\ isdigit (get_accurate_version "major" version use_epoch) = true.
Proof.
  intros major H.
  assert (E : get_accurate_version "major" version use_epoch = major).
  { unfold get_accurate_version, truncate.
    cbn [in_list existsb String.eqb Ascii.eqb Bool.eqb orb andb negb].
    fold major. rewrite H. now apply isdigit_partition_hyphen. }
  now rewrite E.
Qed.

Lemma get_accurate_version_major_numeric_example :
  get_accurate_version "major" "2:10.4-1" true = "2"
  /\ isdigit (get_accurate_version "major" "2:10.4-1" true) = true.
Proof.
  apply (get_accurate_version_major_numeric "2:10.4-1" true). reflexivity.
Defined.

(** ** More on alias expansion *)

Lemma in_list_In (x : string) (l : list string) :
  in_list x l = true <-> In x l.
Proof.
  unfold in_list. rewrite existsb_exists. split.
  - intros (y & Hy & E). apply String.eqb_eq in E. now subst.
  - intros H. exists x. split; [exact H | apply String.eqb_refl].
Qed.

Lemma scan_packages_cases (k : list string) (packages : list package) :
  scan_packages k packages ([], []) = ([], [])
  \/ exists p, In p packages /\ in_list (fst3 p) k = true
               /\ scan_packages k packages ([], [])
                  = (map fst3 (synthesized k p), synthesized k p).
Proof.
  induction packages as [|q rest IH]; simpl; [now left|].
  destruct (in_list (fst3 q) k) eqn:Hq.
  - right. exists q. repeat split; auto.
  - destruct IH as [IH | (p & Hin & Hp & IH)]; [now left|].
    right. exists p. repeat split; auto.
Qed.

(** X5: the names [get_alias_packages] reports are the names of the
    observations it synthesizes, in the same order. *)
Theorem get_alias_packages_names_agree
    (packages : list package) (known : list (list string)) :
  fst (get_alias_packages packages known)
  = map fst3 (snd (get_alias_packages packages known)).
Proof.
  induction known as [|k ks IH]; [reflexivity|].
  rewrite get_alias_packages_cons. unfold acc_app. cbn [fst snd].
  rewrite map_app, <- IH. f_equal.
  destruct (scan_packages_cases k packages) as [E | (p & _ & _ & E)];
    now rewrite E.
Qed.

(** X6: every synthesized observation carries a name of some group next
    to the name of an observation of the batch, differs from that name and
    has that observation's variant and version. *)
Theorem get_alias_packages_provenance
    (packages : list package) (known : list (list string)) :
  Forall (alias_of packages known) (snd (get_alias_packages packages known)).
Proof.
  induction known as [|k ks IH]; [constructor|].
  rewrite get_alias_packages_cons. unfold acc_app. cbn [snd].
  apply Forall_app. split.
  - destruct (scan_packages_cases k packages) as [E | (p & Hin & Hp & E)];
      rewrite E; [constructor|]. cbn [snd].
    unfold synthesized. apply List.Forall_forall. intros a Ha.
    apply in_map_iff in Ha as (x & <- & Hx).
    apply filter_In in Hx as [Hxk Hne].
    exists k, p. repeat split; auto.
    + now left.
    + now apply in_list_In.
    + cbn. apply negb_true_iff in Hne. now apply String.eqb_neq.
  - eapply List.Forall_impl; [|exact IH].
    intros a (k' & p & Hk & H). exists k', p. split; [now right | exact H].
Qed.

(** X7: when no observation of the batch bears a name of any group, in
    particular on an empty batch or with an empty table, nothing is
    synthesized. *)
Theorem get_alias_packages_no_match
    (packages : list package) (known : list (list string)) :
  forallb (fun k => forallb (fun q => negb (in_list (fst3 q) k)) packages)
          known = true ->
  get_alias_packages packages known = ([], []).
Proof.
  induction known as [|k ks IH]; [reflexivity|].
  cbn [forallb]. intros H. apply andb_true_iff in H as [Hk Hks].
  rewrite get_alias_packages_cons, (scan_packages_no_match k packages Hk).
  now rewrite (IH Hks).
Qed.

Lemma get_alias_packages_no_match_example :
  get_alias_packages [("busybox", None, "1.24"); ("dropbear", None, "2016")]
                     [["kernel"; "linux_kernel"]; ["openssl"; "libssl"]]
  = ([], []).
Proof. apply get_alias_packages_no_match. reflexivity. Defined.

(** ** The alias table *)

Lemma alias_groups_none (lines : list string) :
  AliasTable.alias_groups lines = None <-> In "" lines.
Proof.
  induction lines as [|x rest IH]; simpl.
  - split; [discriminate | contradiction].
  - destruct x as [|c x]; simpl.
    + split; [now left | reflexivity].
    + destruct (AliasTable.alias_groups rest) as [groups|].
      * split; [discriminate|].
        intros [H | H]; [discriminate|]. now apply IH in H.
      * split; [|reflexivity]. intros _. right. now apply IH.
Qed.

(** X8: the alias table is loaded unless one of its lines is empty: an
    empty line makes the comprehension raise [IndexError], wherever it
    stands; a table that cannot be read gives no group. *)
Theorem load_package_aliases_blank_line :
  AliasTable.load_package_aliases IO_ERROR = Some []
  /\ forall content,
       AliasTable.load_package_aliases (FileContent content) = None
       <-> In "" (PackagesDpkgInstalled.splitlines content).
Proof.
  split; [reflexivity|]. intros content. apply alias_groups_none.
Qed.

Example load_package_aliases_blank_line_example :
  AliasTable.load_package_aliases
    (FileContent ("kernel;linux_kernel" +:+ String LF
                  (String LF "openssl;libssl")))
  = None.
Proof. reflexivity. Qed.

Lemma split_from_not_nil (sep : ascii) (cur s : string) :
  split_from sep cur s <> [].
Proof.
  revert cur. induction s as [|c s IH]; intros cur; simpl; [discriminate|].
  destruct (Ascii.eqb c sep); [discriminate | apply IH].
Qed.

(** X9: every group of a loaded table is the split at ';' of a line of
    the file that does not start with '#' and is not made of white space
    only; it holds at least one name. *)
Theorem load_package_aliases_groups
    (r : read_result) (groups : list (list string)) :
  AliasTable.load_package_aliases r = Some groups ->
  Forall (fun k =>
            k <> []
            /\ exists x,
                 k = split ";" x
                 /\ String.prefix "#" x = false
                 /\ strip x <> ""
                 /\ match r with
                    | IO_ERROR => False
                    | FileContent content =>
                        In x (PackagesDpkgInstalled.splitlines content)
                    end)
         groups.
Proof.
  unfold AliasTable.load_package_aliases.
  assert (H : forall lines gs,
             AliasTable.alias_groups lines = Some gs ->
             Forall (fun k => k <> []
                              /\ exists x, k = split ";" x
                                   /\ String.prefix "#" x = false
                                   /\ strip x <> "" /\ In x lines) gs).
  { induction lines as [|x rest IH]; intros gs; simpl.
    - intros [= <-]. constructor.
    - destruct x as [|c x]; [discriminate|]. cbn [AliasTable.keep_alias_line].
      destruct (AliasTable.alias_groups rest) as [gs'|]; [|discriminate].
      specialize (IH gs' eq_refl).
      assert (IH' : Forall (fun k => k <> []
                              /\ exists y, k = split ";" y
                                   /\ String.prefix "#" y = false
                                   /\ strip y <> ""
                                   /\ (String c x = y \/ In y rest)) gs').
      { eapply List.Forall_impl; [|exact IH].
        intros k (Hk & y & H1 & H2 & H3 & H4). split; [exact Hk|].
        exists y. auto. }
      destruct (negb _ && _) eqn:Hkeep; intros [= <-]; [|exact IH'].
      constructor; [|exact IH'].
      split; [apply split_from_not_nil|].
      exists (String c x). apply andb_true_iff in Hkeep as [Hc Hs].
      repeat split; auto.
      + simpl in Hc. rewrite orb_false_r in Hc. apply negb_true_iff in Hc.
        change (String.prefix "#" (String c x))
          with (if ascii_dec "#" c then String.prefix "" x else false).
        destruct (ascii_dec "#" c) as [<-|]; [discriminate|].
        reflexivity.
      + intros E. rewrite E in Hs. discriminate. }
  intros Hload. destruct r as [|content].
  - simpl in Hload. injection Hload as <-. constructor.
  - now apply H.
Qed.

Lemma load_package_aliases_groups_example :
  Forall (fun k => k <> [] /\ exists x, k = split ";" x
              /\ String.prefix "#" x = false /\ strip x <> ""
              /\ In x (PackagesDpkgInstalled.splitlines
                         ("# known aliases" +:+ String LF
                          ("kernel;linux_kernel" +:+ String LF
                           ("  " +:+ String LF "openssl;libssl;libcrypto")))))
         [["kernel"; "linux_kernel"]; ["openssl"; "libssl"; "libcrypto"]].
Proof.
  apply (load_package_aliases_groups
           (FileContent ("# known aliases" +:+ String LF
                         ("kernel;linux_kernel" +:+ String LF
                          ("  " +:+ String LF "openssl;libssl;libcrypto"))))).
  reflexivity.
Defined.

(** ** packages.dpkg.installed: the status file *)

Module Dpkg := PackagesDpkgInstalled.

Lemma triples_bound (n : nat) :
  forall l : list string,
    length l <= n ->
    3 * length (Dpkg.triples l) <= length l
    /\ forall e x, In e (Dpkg.triples l) -> In x e -> In x l.
Proof.
  induction n as [|n IH]; intros l Hl.
  - destruct l; [|simpl in Hl; lia]. simpl. split; [lia | contradiction].
  - destruct l as [|a [|b [|c rest]]]; simpl;
      try (split; [lia | contradiction]).
    simpl in Hl. destruct (IH rest ltac:(lia)) as [Hlen Hin].
    split; [lia|].
    intros e x [<- | He] Hx.
    + simpl in Hx. intuition.
    + right. right. right. eapply Hin; eauto.
Qed.

Lemma triples_length (l : list string) :
  3 * length (Dpkg.triples l) <= length l.
Proof. now apply (triples_bound (length l)). Qed.

Lemma triples_In (l e : list string) (x : string) :
  In e (Dpkg.triples l) -> In x e -> In x l.
Proof. now apply (triples_bound (length l)). Qed.

Lemma head_In {A : Type} (l : list A) (v : A) : head l = Some v -> In v l.
Proof. destruct l; [discriminate|]. intros [= ->]. now left. Qed.

Lemma field_In (key : string) (entry : list string) (v : string) :
  Dpkg.field key entry = Some v ->
  exists x, In x entry /\ startswith key x = true
            /\ v = thd3 (partition " " x).
Proof.
  unfold Dpkg.field. intros H. apply head_In in H.
  apply in_map_iff in H as (x & <- & Hx). apply filter_In in Hx as [Hx Hk].
  now exists x.
Qed.

Lemma add_entry_length results entry :
  length (Dpkg.add_entry results entry) <= S (length results).
Proof.
  unfold Dpkg.add_entry.
  destruct (Dpkg.field "Package" entry); [|lia].
  destruct (Dpkg.field "Version" entry); [|lia].
  destruct (Dpkg.field "Status" entry); [|lia].
  destruct (contains "installed" _); [|lia].
  rewrite length_app. simpl. lia.
Qed.

Lemma fold_add_entry_length info results :
  length (fold_left Dpkg.add_entry info results)
  <= length results + length info.
Proof.
  revert results. induction info as [|e info IH]; intros results; simpl.
  - lia.
  - specialize (IH (Dpkg.add_entry results e)).
    pose proof (add_entry_length results e). lia.
Qed.

Lemma filter_length_le {A : Type} (f : A -> bool) (l : list A) :
  length (List.filter f l) <= length l.
Proof.
  induction l as [|x l IH]; simpl; [lia|]. destruct (f x); simpl; lia.
Qed.

(** X11: [run] reveals at most one package for every three lines of the
    status file. *)
Theorem parse_status_count (content : string) :
  3 * length (Dpkg.parse_status content)
  <= length (Dpkg.splitlines content).
Proof.
  unfold Dpkg.parse_status.
  match goal with
  | |- context [fold_left _ (Dpkg.triples ?sel) _] =>
      pose proof (fold_add_entry_length (Dpkg.triples sel) []) as H1;
      pose proof (triples_length sel) as H2;
      assert (H3 : length sel <= length (Dpkg.splitlines content))
        by apply filter_length_le
  end.
  simpl in H1. lia.
Qed.

Lemma add_entry_from_lines lines results entry :
  (forall x, In x entry -> In x lines) ->
  Forall (from_lines lines) results ->
  Forall (from_lines lines) (Dpkg.add_entry results entry).
Proof.
  intros Hsub Hres. unfold Dpkg.add_entry.
  destruct (Dpkg.field "Package" entry) as [pkg|] eqn:Hp; [|exact Hres].
  destruct (Dpkg.field "Version" entry) as [ver|] eqn:Hv; [|exact Hres].
  destruct (Dpkg.field "Status" entry) as [st|]; [|exact Hres].
  destruct (contains "installed" st); [|exact Hres].
  apply Forall_app. split; [exact Hres|]. constructor; [|constructor].
  apply field_In in Hp as (l1 & H1 & Hs1 & ->).
  apply field_In in Hv as (l2 & H2 & Hs2 & ->).
  split; [reflexivity|]. exists l1, l2. repeat split; auto.
Qed.

(** X10: every package [run] reveals has no variant, bears the name that
    follows the first space of a line of the file starting with "Package"
    and the version that follows the first space of a line starting with
    "Version". *)
Theorem parse_status_from_lines (content : string) :
  Forall (from_lines (Dpkg.splitlines content)) (Dpkg.parse_status content).
Proof.
  unfold Dpkg.parse_status.
  set (lines := Dpkg.splitlines content).
  set (sel := List.filter _ lines).
  assert (Hsel : forall x, In x sel -> In x lines).
  { intros x Hx. now apply filter_In in Hx. }
  assert (H : forall info results,
             (forall e, In e info -> In e (Dpkg.triples sel)) ->
             Forall (from_lines lines) results ->
             Forall (from_lines lines) (fold_left Dpkg.add_entry info results)).
  { induction info as [|e info IH]; intros results Hinfo Hres; simpl;
      [exact Hres|].
    apply IH; [intros e' He'; apply Hinfo; now right|].
    apply add_entry_from_lines; [|exact Hres].
    intros x Hx. apply Hsel. eapply triples_In; [apply Hinfo; now left|].
    exact Hx. }
  apply H; [auto | constructor].
Qed.

(** *** Reading back a status text *)

Lemma append_nil_r (s : string) : s +:+ "" = s.
Proof.
  induction s as [|c s IH]; [reflexivity|]. now rewrite append_String, IH.
Qed.

Lemma append_assoc (a b c : string) : (a +:+ b) +:+ c = a +:+ (b +:+ c).
Proof.
  induction a as [|x a IH]; [reflexivity|].
  now rewrite !append_String, IH.
Qed.

Lemma splitlines_from_LF (cur rest : string) :
  Dpkg.splitlines_from cur (String LF rest)
  = cur :: Dpkg.splitlines_from "" rest.
Proof. destruct rest; reflexivity. Qed.

Lemma splitlines_from_line (l cur rest : string) :
  no_linebreak l = true ->
  Dpkg.splitlines_from cur (l +:+ String LF rest)
  = (cur +:+ l) :: Dpkg.splitlines_from "" rest.
Proof.
  revert cur. induction l as [|c l IH]; intros cur Hl.
  - rewrite append_nil_l, append_nil_r. apply splitlines_from_LF.
  - simpl in Hl. apply andb_true_iff in Hl as [Hc Hl].
    apply negb_true_iff in Hc.
    rewrite append_String. cbn [Dpkg.splitlines_from]. rewrite Hc.
    rewrite (IH _ Hl), append_assoc. reflexivity.
Qed.

Lemma splitlines_unlines (lines : list string) :
  forallb no_linebreak lines = true ->
  Dpkg.splitlines (unlines lines) = lines.
Proof.
  unfold Dpkg.splitlines.
  induction lines as [|l lines IH]; [reflexivity|].
  cbn [forallb unlines fold_right]. intros H.
  apply andb_true_iff in H as [Hl Hlines].
  rewrite (splitlines_from_line l "" _ Hl), append_nil_l.
  f_equal. now apply IH.
Qed.

Lemma filter_unselected (fields : list string) :
  forallb (fun x => no_linebreak x && negb (selected x)) fields = true ->
  List.filter selected fields = [].
Proof.
  induction fields as [|x fields IH]; [reflexivity|].
  cbn [forallb List.filter]. intros H.
  apply andb_true_iff in H as [Hx Hf]. apply andb_true_iff in Hx as [_ Hx].
  apply negb_true_iff in Hx. rewrite Hx. now apply IH.
Qed.

Lemma stanza_lines_selected (st : stanza) :
  well_formed st = true ->
  List.filter selected (stanza_lines st) = stanza_triple st.
Proof.
  unfold well_formed, stanza_lines, stanza_triple. intros H.
  apply andb_true_iff in H as [_ Hf].
  rewrite !List.filter_app, (filter_unselected _ Hf). reflexivity.
Qed.

Lemma stanza_lines_no_linebreak (st : stanza) :
  well_formed st = true -> forallb no_linebreak (stanza_lines st) = true.
Proof.
  unfold well_formed, stanza_lines. intros H.
  apply andb_true_iff in H as [H Hf]. apply andb_true_iff in H as [H Hv].
  apply andb_true_iff in H as [Hn Hs].
  rewrite !forallb_app. cbn [forallb].
  change (no_linebreak ("Package: " +:+ st_name st))
    with (no_linebreak (st_name st)).
  change (no_linebreak ("Status: " +:+ st_status st))
    with (no_linebreak (st_status st)).
  change (no_linebreak ("Version: " +:+ st_version st))
    with (no_linebreak (st_version st)).
  rewrite Hn, Hs, Hv. cbn [andb no_linebreak].
  rewrite andb_true_r. clear -Hf.
  induction (st_fields st) as [|x fields IH]; [reflexivity|].
  cbn [forallb] in *. apply andb_true_iff in Hf as [Hx Hf].
  apply andb_true_iff in Hx as [Hx _]. now rewrite Hx, IH.
Qed.

Lemma add_entry_stanza (results : list package) (st : stanza) :
  Dpkg.add_entry results (stanza_triple st)
  = results ++ (if installed st then [observation st] else []).
Proof.
  unfold Dpkg.add_entry, stanza_triple, installed, observation.
  change (Dpkg.field "Package" _) with (Some (st_name st)).
  change (Dpkg.field "Version" _) with (Some (st_version st)).
  change (Dpkg.field "Status" _) with (Some (st_status st)).
  cbv beta iota.
  destruct (contains "installed" (st_status st)); [reflexivity|].
  now rewrite app_nil_r.
Qed.

(** X12: a status text made of well-formed stanzas is read back as the
    packages of the stanzas whose status holds "installed", in order, with
    their names and versions. *)
Theorem parse_status_reads_back (stanzas : list stanza) :
  forallb well_formed stanzas = true ->
  Dpkg.parse_status (status_text stanzas)
  = map observation (List.filter installed stanzas).
Proof.
  intros Hwf. unfold Dpkg.parse_status, status_text.
  assert (Hlines : forallb no_linebreak (flat_map stanza_lines stanzas)
                   = true).
  { induction stanzas as [|st sts IH]; [reflexivity|].
    cbn [forallb flat_map] in *. apply andb_true_iff in Hwf as [Hst Hsts].
    rewrite forallb_app, (stanza_lines_no_linebreak st Hst). now apply IH. }
  rewrite (splitlines_unlines _ Hlines).
  change (fun x => startswith "Package" x || startswith "Status" x
                   || startswith "Version" x) with selected.
  assert (Hsel : forall sts, forallb well_formed sts = true ->
            Dpkg.triples (List.filter selected (flat_map stanza_lines sts))
            = map stanza_triple sts).
  { induction sts as [|st sts IH]; [reflexivity|].
    cbn [forallb flat_map]. intros H. apply andb_true_iff in H as [Hst Hsts].
    rewrite List.filter_app, (stanza_lines_selected st Hst).
    cbn [map]. unfold stanza_triple at 1. simpl. f_equal. now apply IH. }
  rewrite (Hsel _ Hwf).
  assert (Hfold : forall sts results,
            fold_left Dpkg.add_entry (map stanza_triple sts) results
            = results ++ map observation (List.filter installed sts)).
  { induction sts as [|st sts IH]; intros results; simpl;
      [now rewrite app_nil_r|].
    rewrite IH, add_entry_stanza.
    destruct (installed st); simpl; [now rewrite <- app_assoc|].
    now rewrite app_nil_r. }
  apply (Hfold stanzas []).
Qed.

Lemma parse_status_reads_back_example :
  Dpkg.parse_status
    (status_text
       [mkStanza "openssl" "install ok installed"
                 ["Priority: optional"; "Section: utils"] "1.0.1t-1+deb8u5";
        mkStanza "telnetd" "deinstall ok config-files" [] "0.17-36";
        mkStanza "busybox" "install ok installed" [] "1:1.22.0-9"])
  = [("openssl", None, "1.0.1t-1+deb8u5"); ("busybox", None, "1:1.22.0-9")].
Proof. apply parse_status_reads_back. reflexivity. Defined.

(** ** packages.dpkg.installed: more on run *)

Lemma get_param_params {DB : Type} (w w' : World DB) m k :
  params w' = params w -> get_param w' m k = get_param w m k.
Proof. intros H. unfold get_param. now rewrite H. Qed.

Section DpkgRun.
Context {DB : Type} (E : Env DB).

Lemma dpkg_run_params (w : World DB) :
  params (snd (Dpkg.run E w)) = params w.
Proof.
  unfold Dpkg.run. destruct (read_file E _ _); [reflexivity|].
  destruct (positive E _); reflexivity.
Qed.

Lemma dpkg_run_tb (w : World DB) :
  tb (snd (Dpkg.run E w))
  = match read_file E (get_param w Dpkg.self "ACTIVEROOT")
            Dpkg.status_file with
    | IO_ERROR => tb w
    | FileContent content =>
        <[get_param w Dpkg.self "TAG" := Dpkg.parse_status content]> (tb w)
    end.
Proof.
  unfold Dpkg.run. destruct (read_file E _ _); [reflexivity|].
  destruct (positive E _); reflexivity.
Qed.

End DpkgRun.

(** X13: [run] of packages.dpkg.installed touches the scratch store at
    its TAG only: every other tag keeps its entry, and the parameters, the
    corpus, the scheduler and the threads are as before. *)
Theorem dpkg_run_other_tags_untouched {DB : Type} (E : Env DB)
    (w : World DB) (k : value) :
  k <> get_param w Dpkg.self "TAG" ->
  tb (snd (Dpkg.run E w)) !! k = tb w !! k
  /\ params (snd (Dpkg.run E w)) = params w
  /\ db (snd (Dpkg.run E w)) = db w
  /\ scheduler (snd (Dpkg.run E w)) = scheduler w
  /\ threads (snd (Dpkg.run E w)) = threads w.
Proof.
  intros Hk. split.
  - rewrite dpkg_run_tb. destruct (read_file E _ _); [reflexivity|].
    now rewrite lookup_insert_ne.
  - unfold Dpkg.run. destruct (read_file E _ _); [now repeat split|].
    destruct (positive E _); now repeat split.
Qed.

Lemma dpkg_run_other_tags_untouched_example :
  let E := sample_env_of (FileContent sample_status) (fun _ => None) in
  let w := tb_set (Some "fw_accuracy") [] dpkg_world in
  tb (snd (Dpkg.run E w)) !! Some "fw_accuracy" = Some [].
Proof.
  cbv zeta.
  destruct (dpkg_run_other_tags_untouched
              (sample_env_of (FileContent sample_status) (fun _ => None))
              (tb_set (Some "fw_accuracy") [] dpkg_world)
              (Some "fw_accuracy")) as [H _].
  - vm_compute. discriminate.
  - rewrite H. reflexivity.
Defined.

(** X14: running packages.dpkg.installed again on what it left, with the
    same answers of the filesystem, leaves the same scratch store: the TAG
    entry is overwritten, nothing is appended to it. *)
Theorem dpkg_run_twice {DB : Type} (E : Env DB) (w : World DB) :
  let w1 := snd (Dpkg.run E w) in
  fst (Dpkg.run E w1) = None /\ tb (snd (Dpkg.run E w1)) = tb w1.
Proof.
  cbv zeta. split.
  - unfold Dpkg.run at 1. destruct (read_file E _ _); reflexivity.
  - rewrite (dpkg_run_tb E (snd (Dpkg.run E w))).
    rewrite !(get_param_params w _ _ _ (dpkg_run_params E w)).
    rewrite (dpkg_run_tb E w).
    destruct (read_file E _ _); [reflexivity|].
    apply insert_insert_eq.
Qed.

(** ** More on the checks *)

Lemma aggregate_failure (vs : list Confidence) (start : Confidence) :
  In CHECK_FAILURE vs -> aggregate start vs = CHECK_FAILURE.
Proof.
  intros Hin. destruct (aggregate_is_min vs start) as (_ & Hall & _).
  rewrite List.Forall_forall in Hall. specialize (Hall _ Hin).
  unfold cle in Hall. destruct (aggregate start vs); simpl in Hall;
    [reflexivity | lia | lia | lia].
Qed.

(** X17: analysis.iot's [check] answers FAILURE on a METHOD that is none
    of local, image and ssh, on an ACCURACY that is none of the five, and
    for an image on an EXTRACT that is neither positive nor negative,
    whatever the environment and the other parameters are. *)
Theorem iot_check_configuration_error {DB : Type} (E : Env DB)
    (silent : option bool) (w : World DB) :
  let method := get_param w AnalysisIotCheck.self "METHOD" in
  let accuracy := get_param w AnalysisIotCheck.self "ACCURACY" in
  let extract := get_param w AnalysisIotCheck.self "EXTRACT" in
  v_in method ["local"; "image"; "ssh"] = false
  \/ v_in accuracy ["none"; "major"; "minor"; "build"; "full"] = false
  \/ (veq method "image" = true
      /\ positive E extract || negative E extract = false) ->
  fst (AnalysisIotCheck.check E silent w) = CHECK_FAILURE.
Proof.
  intros method accuracy extract H.
  rewrite iot_check_aggregate. apply aggregate_failure.
  unfold iot_verdicts. fold method. fold accuracy. fold extract.
  destruct H as [H | [H | [Hm H]]].
  - rewrite H. now left.
  - rewrite H. apply in_or_app. right. apply in_or_app. right. now left.
  - rewrite Hm, H. apply in_or_app. right. apply in_or_app. left.
    right. now left.
Qed.

Lemma iot_check_configuration_error_example :
  fst (AnalysisIotCheck.check sample_env None
         (set_param AnalysisIotCheck.self "ACCURACY" (Some "patch") iot_world))
  = CHECK_FAILURE.
Proof.
  apply iot_check_configuration_error. right. left. reflexivity.
Defined.

(** X15: locasploit.update.vulnerabilities' [check] does not use its
    [silent] argument: the SILENT parameter alone decides what is logged,
    and a call with [silent=True] logs the errors all the same when SILENT
    is not positive. *)
Theorem luv_check_ignores_silent {DB : Type} (E : Env DB)
    (silent silent' : option bool) (w : World DB) :
  LUV.check E silent w = LUV.check E silent' w
  /\ (positive E (get_param w LUV.self "SILENT") = false ->
      urllib_importable E = false ->
      exists entries,
        log (snd (LUV.check E (Some true) w))
        = log w ++ entries
             ++ [LogErr "Cannot import urllib.request library (urllib5)."]).
Proof.
  split; [reflexivity|].
  intros Hs Hu. unfold LUV.check. rewrite Hs, Hu.
  destruct (negb _ && negb _); cbn.
  - exists [LogErr "Bad %s value: %s."]. now rewrite <- app_assoc.
  - now exists [].
Qed.

Lemma luv_check_ignores_silent_example :
  log (snd (LUV.check offline_env (Some true) luv_world))
  = [LogErr "Cannot import urllib.request library (urllib5)."].
Proof.
  destruct (luv_check_ignores_silent offline_env None None luv_world)
    as [_ H].
  destruct H as [entries H]; [reflexivity | reflexivity |].
  reflexivity.
Defined.

(** X16: a silent [check] of packages.dpkg.installed changes nothing at
    all, and so does a silent [check] of analysis.iot whose METHOD is not
    image. *)
Theorem silent_check_changes_nothing {DB : Type} (E : Env DB)
    (w : World DB) :
  snd (Dpkg.check E (Some true) w) = w
  /\ (veq (get_param w AnalysisIotCheck.self "METHOD") "image" = false ->
      snd (AnalysisIotCheck.check E (Some true) w) = w).
Proof.
  split.
  - unfold Dpkg.check.
    destruct (negb (startswith _ _)), (negb (can_read _ _ _)); reflexivity.
  - intros Hm. unfold AnalysisIotCheck.check, AnalysisIotCheck.check_accuracy.
    rewrite Hm.
    destruct (negb (v_in (get_param w AnalysisIotCheck.self "METHOD") _));
      cbv beta iota zeta;
      destruct (veq _ "ssh");
      [destruct (negb (get_ssh_connection E _))
      | destruct (veq _ "local");
        [destruct (negb (String.eqb _ _))|]
      | destruct (negb (get_ssh_connection E _))
      | destruct (veq _ "local");
        [destruct (negb (String.eqb _ _))|]];
      cbv beta iota zeta;
      destruct (negb (v_in _ _)); reflexivity.
Qed.

Lemma silent_check_changes_nothing_example :
  snd (AnalysisIotCheck.check sample_env (Some true)
         (set_param AnalysisIotCheck.self "METHOD" (Some "ssh") iot_world))
  = set_param AnalysisIotCheck.self "METHOD" (Some "ssh") iot_world.
Proof.
  apply (silent_check_changes_nothing sample_env). reflexivity.
Defined.

(** ** locasploit.update.vulnerabilities: more on run and Thread.run *)

Lemma get_param_set_param {DB : Type} (w : World DB) m k v m' k' :
  get_param (set_param m k v w) m' k'
  = if decide (m = m') then
      if decide (k = k') then v else get_param w m' k'
    else get_param w m' k'.
Proof.
  unfold get_param, set_param. cbn [params].
  destruct (decide (m = m')) as [<-|Hm].
  - rewrite lookup_insert_eq.
    destruct (decide (k = k')) as [<-|Hk].
    + now rewrite lookup_insert_eq.
    + rewrite lookup_insert_ne by exact Hk.
      destruct (params w !! m); [reflexivity|]. cbn. now rewrite lookup_empty.
  - now rewrite lookup_insert_ne.
Qed.

Section ThreadRunParams.
Context {DB : Type} (E : Env DB).


End ThreadRunParams.



(** X18: in the foreground, with urllib importable and a date test that
    does not raise, when the cve-update or the exploit-update run gives no
    handle, [run] still returns [None] as if all went well: the
    [TypeError] ends the thread, not the caller, and the scheduler holds
    no cleanup job. *)
Theorem luv_run_foreground_hides_failure {DB : Type} (E : Env DB)
    (w : World DB) (lately : bool) :
  keeps_scheduler E ->
  positive E (get_param w LUV.self "BACKGROUND") = false ->
  urllib_importable E = true ->
  LUV.updated_lately E (last_update E) = inr lately ->
  sub_run_result E LUV.cve = None \/ sub_run_result E LUV.exploit = None ->
  let th := mkThread (positive E (get_param w LUV.self "SILENT")) false false
                     Initial in
  let started :=
    LUV.set_status (length (threads w)) Started
      (set_threads (threads w ++ [th]) w) in
  fst (LUV.run E w) = None
  /\ fst (LUV.Thread_run E th started) = LUV.Raised LUV.TypeError
  /\ scheduler (snd (LUV.run E w)) = scheduler w ++ partial_chain E w.
Proof.
  intros Hk Hbg Himp Hdate Hnone th started.
  destruct (Thread_run_partial E th started lately Hk eq_refl Himp Hdate
              Hnone)
    as [Hraise Hsched].
  assert (Hrun : LUV.run E w
                 = (None, LUV.set_status (length (threads w)) Finished
                            (snd (LUV.Thread_run E th started)))).
  { unfold LUV.run. rewrite get_param_set_threads, Hbg.
    fold th. fold started. now destruct (LUV.Thread_run E th started). }
  rewrite Hrun. cbn [fst snd].
  split; [reflexivity|]. split; [exact Hraise|].
  unfold LUV.set_status. cbn [scheduler set_threads]. exact Hsched.
Qed.

Lemma luv_run_foreground_hides_failure_example :
  fst (LUV.run sample_env luv_world_foreground) = None
  /\ scheduler (snd (LUV.run sample_env luv_world_foreground)) = [].
Proof.
  destruct (luv_run_foreground_hides_failure sample_env luv_world_foreground
              true) as (H1 & _ & H2).
  - intros name w0. reflexivity.
  - reflexivity.
  - reflexivity.
  - reflexivity.
  - left. reflexivity.
  - split; [exact H1 | exact H2].
Defined.

(** ** analysis.iot: the sub-module check *)

Lemma check_accuracy_params {DB : Type} silent accuracy result (w : World DB) :
  params (snd (AnalysisIotCheck.check_accuracy silent accuracy result w))
  = params w.
Proof.
  unfold AnalysisIotCheck.check_accuracy.
  destruct (negb _); [destruct silent|]; reflexivity.
Qed.

(** X20: for an image, analysis.iot's [check] hands its own ACTIVEROOT,
    TARGET and TMPDIR to iot.binwalk.extract as ACTIVEROOT, BINFILE and
    TMPDIR before it calls that module's check, and they are still there
    when [check] returns, provided that check leaves parameters alone. *)
Theorem iot_check_configures_binwalk {DB : Type} (E : Env DB)
    (silent : option bool) (w : World DB) :
  (forall w0, params (snd (ibe_check E w0)) = params w0) ->
  veq (get_param w AnalysisIotCheck.self "METHOD") "image" = true ->
  let self := AnalysisIotCheck.self in
  let ibe := AnalysisIotCheck.ibe in
  let w' := snd (AnalysisIotCheck.check E silent w) in
  get_param w' ibe "ACTIVEROOT" = get_param w self "ACTIVEROOT"
  /\ get_param w' ibe "BINFILE" = get_param w self "TARGET"
  /\ get_param w' ibe "TMPDIR" = get_param w self "TMPDIR"
  /\ forall k, get_param w' self k = get_param w self k.
Proof.
  intros Hibe Hm self ibe w'.
  assert (Hp : params w'
               = params
                   (set_param ibe "TMPDIR" (get_param w self "TMPDIR")
                     (set_param ibe "BINFILE" (get_param w self "TARGET")
                       (set_param ibe "ACTIVEROOT"
                          (get_param w self "ACTIVEROOT") w)))).
  { unfold w', AnalysisIotCheck.check.
    rewrite (veq_image_in_methods _ Hm), Hm. cbv beta iota zeta. cbn [negb].
    match goal with
    | |- context [ibe_check E ?w0] =>
        pose proof (Hibe w0) as Hw0; destruct (ibe_check E w0) as [c w2]
    end.
    cbn [snd] in Hw0.
    assert (Hsame : forall (w3 : World DB) m k v m' k',
              m <> m' ->
              get_param (set_param m k v w3) m' k' = get_param w3 m' k').
    { intros w3 m k v m' k' Hne. rewrite get_param_set_param.
      destruct (decide (m = m')); [contradiction | reflexivity]. }
    rewrite !Hsame in Hw0 by discriminate.
    destruct (negb (_ || _)).
    - cbn [snd]. destruct (match silent with Some b => b | None => _ end);
        cbn [log_unless log_add params]; exact Hw0.
    - rewrite check_accuracy_params. exact Hw0. }
  repeat split; try intros k;
    rewrite (get_param_params _ w' _ _ Hp), !get_param_set_param;
    repeat (destruct (decide _) as [Heq|Hne];
            try discriminate Heq; try (exfalso; apply Hne; reflexivity));
    reflexivity.
Qed.

Lemma iot_check_configures_binwalk_example :
  let w' := snd (AnalysisIotCheck.check sample_env None iot_world) in
  get_param w' AnalysisIotCheck.ibe "ACTIVEROOT" = Some "/"
  /\ get_param w' AnalysisIotCheck.ibe "BINFILE" = Some "/tmp/fw.bin"
  /\ get_param w' AnalysisIotCheck.ibe "TMPDIR" = Some "/tmp".
Proof.
  destruct (iot_check_configures_binwalk sample_env None iot_world)
    as (H1 & H2 & H3 & _).
  - intros w0. reflexivity.
  - reflexivity.
  - cbv zeta. rewrite H1, H2, H3. repeat split; reflexivity.
Defined.

(** ** packages.dpkg.installed: a stanza without version *)

Lemma add_entry_no_version (results : list package) (n s n' : string) :
  Dpkg.add_entry results
    ["Package: " +:+ n; "Status: " +:+ s; "Package: " +:+ n']
  = results.
Proof. reflexivity. Qed.

Lemma add_entry_shifted (results : list package) (s v n : string) :
  Dpkg.add_entry results
    ["Status: " +:+ s; "Version: " +:+ v; "Package: " +:+ n]
  = if contains "installed" s then results ++ [(n, None, v)] else results.
Proof. reflexivity. Qed.

(** X21: the kept lines are grouped by three as they come.  After a
    stanza that has a package and a status line but no version line, the
    next stanza is lost and the one after it is revealed under its own
    name with the version of the lost one, when that one's status holds
    "installed"; nothing else is revealed. *)
Theorem parse_status_missing_version_shifts
    (name status : string) (lost next : stanza) :
  no_linebreak name = true -> no_linebreak status = true ->
  well_formed lost = true -> well_formed next = true ->
  Dpkg.parse_status
    (unlines (["Package: " +:+ name; "Status: " +:+ status; ""]
              ++ stanza_lines lost ++ stanza_lines next))
  = if installed lost then [(st_name next, None, st_version lost)] else [].
Proof.
  intros Hn Hs Hlost Hnext. unfold Dpkg.parse_status.
  rewrite splitlines_unlines.
  - change (fun x => startswith "Package" x || startswith "Status" x
                     || startswith "Version" x) with selected.
    rewrite !List.filter_app, (stanza_lines_selected lost Hlost),
      (stanza_lines_selected next Hnext).
    unfold installed, stanza_triple.
    change (List.filter selected
              ["Package: " +:+ name; "Status: " +:+ status; ""])
      with ["Package: " +:+ name; "Status: " +:+ status].
    cbn [app Dpkg.triples fold_left].
    rewrite add_entry_no_version, add_entry_shifted. reflexivity.
  - rewrite !forallb_app, (stanza_lines_no_linebreak lost Hlost),
      (stanza_lines_no_linebreak next Hnext).
    cbn [forallb].
    change (no_linebreak ("Package: " +:+ name)) with (no_linebreak name).
    change (no_linebreak ("Status: " +:+ status)) with (no_linebreak status).
    now rewrite Hn, Hs.
Qed.

Lemma parse_status_missing_version_shifts_example :
  Dpkg.parse_status
    (unlines (["Package: oldlib"; "Status: purge ok not-installed"; ""]
              ++ stanza_lines
                   (mkStanza "openssl" "install ok installed" [] "1.0.1t-1")
              ++ stanza_lines
                   (mkStanza "busybox" "install ok installed" [] "1:1.22.0-9")))
  = [("busybox", None, "1.0.1t-1")].
Proof.
  apply (parse_status_missing_version_shifts "oldlib"
           "purge ok not-installed"
           (mkStanza "openssl" "install ok installed" [] "1.0.1t-1")
           (mkStanza "busybox" "install ok installed" [] "1:1.22.0-9"));
    reflexivity.
Defined.
